(** * The object definition parser of the FIFE editor's object toolbar

    A shallow embedding of the parsing functions of
    [editor/object_toolbar.py] ([parse_file], [parse_atlas],
    [parse_object], [parse_actions], [parse_animations],
    [parse_animation], [parse_animation_atlas]) and the properties the
    specification states about them.

    The code is Python 2 ([file], [iteritems]).  Python values are
    modelled as follows:
    - [str] and [unicode] as [string] (UTF-8 bytes), [int] as [Z];
    - a [dict] with string or integer keys as a [gmap];
    - an lxml element as an [element] (tag, attribute mapping, children);
    - a raised exception as the [Raise] case of [result].

    The XML parser ([lxml.etree]), the file system, [os.path] and the
    character tables of the interpreter are not part of the
    repository: the functions take them from a [Platform] instance.
    [Module Posix] gives [os.path] as [posixpath] implements it, and
    [Module Fixtures] gives platforms over a handful of concrete
    files. *)

From stdpp Require Import base option list strings gmap fin_maps.
From Stdlib Require Import ZArith Lia.
From Stdlib Require Import Ascii.

Local Open Scope string_scope.
Local Open Scope Z_scope.
Local Open Scope list_scope.

(** ** Exceptions and results *)

(** The exceptions the parsing functions can end in.  [XMLSyntaxError]
    carries [e.position], a (line, column) pair. *)
Inductive exn : Type :=
| XMLSyntaxError (position : Z * Z)
| IOError
| KeyError (key : string)
| ValueError
| IndexError
| AttributeError
| TypeError
| UnicodeDecodeError
| RuntimeError (msg : string).

Inductive result (A : Type) : Type :=
| Return (a : A)
| Raise (e : exn).
Arguments Return {A} a.
Arguments Raise {A} e.

#[global] Instance result_ret : MRet result := λ A a, Return a.
#[global] Instance result_bind : MBind result := λ A B f r,
  match r with
  | Return a => f a
  | Raise e => Raise e
  end.

Definition is_Return {A} (r : result A) : Prop := ∃ a, r = Return a.

(** [for x in xs: s = body(s, x)], stopping at the first exception. *)
Fixpoint for_each {A S : Type} (body : S → A → result S) (s : S) (xs : list A)
  : result S :=
  match xs with
  | [] => Return s
  | x :: xs' => s' ← body s x; for_each body s' xs'
  end.

(** ** Python built-ins *)

(** Text is kept as UTF-8 bytes.  What the interpreter knows about the
    characters beyond ASCII comes from its Unicode database:
    [todecimal] is the value of a decimal digit
    ([Py_UNICODE_TODECIMAL]) and [isspace] tells the blanks
    ([Py_UNICODE_ISSPACE]); both take a code point. *)
Class Unicode : Type := {
  todecimal : Z → option nat;
  isspace : Z → bool
}.

Module Py.

(** [d[k]] on a dict: [KeyError] when the key is absent. *)
Definition getitem {V} (d : gmap string V) (k : string) : result V :=
  match d !! k with
  | Some v => Return v
  | None => Raise (KeyError k)
  end.

(** [k in d]. *)
Definition contains {V} (d : gmap string V) (k : string) : bool :=
  bool_decide (is_Some (d !! k)).

(** [d.update(other)]: the entries of [other] win. *)
Definition update {V} (d other : gmap string V) : gmap string V := other ∪ d.

(** [l[i]] on a list for a non-negative literal index. *)
Definition index {A} (l : list A) (i : nat) : result A :=
  match l !! i with
  | Some x => Return x
  | None => Raise IndexError
  end.

(** [l[:n]] and [l[n:]]; a negative bound counts from the end. *)
Definition slice_to {A} (l : list A) (n : Z) : list A :=
  if decide (0 ≤ n) then take (Z.to_nat n) l
  else take (List.length l - Z.to_nat (- n))%nat l.

Definition slice_from {A} (l : list A) (n : Z) : list A :=
  if decide (0 ≤ n) then drop (Z.to_nat n) l
  else drop (List.length l - Z.to_nat (- n))%nat l.

(** [s.split(sep)] for a one-character separator. *)
Fixpoint split (sep : ascii) (s : string) : list string :=
  match s with
  | EmptyString => [EmptyString]
  | String a s' =>
      if decide (a = sep) then EmptyString :: split sep s'
      else match split sep s' with
           | h :: t => String a h :: t
           | [] => [String a EmptyString]
           end
  end.

(** [s.replace(c, '')]. *)
Fixpoint remove_char (c : ascii) (s : string) : string :=
  match s with
  | EmptyString => EmptyString
  | String a s' =>
      if decide (a = c) then remove_char c s' else String a (remove_char c s')
  end.

Definition lower_char (a : ascii) : ascii :=
  let n := nat_of_ascii a in
  if decide (65 ≤ n ≤ 90)%nat then ascii_of_nat (n + 32) else a.

(** [s.lower()] of a byte string in the C locale. *)
Fixpoint lower (s : string) : string :=
  match s with
  | EmptyString => EmptyString
  | String a s' => String (lower_char a) (lower s')
  end.

Definition is_space (a : ascii) : bool :=
  let n := nat_of_ascii a in
  bool_decide (n = 32 ∨ 9 ≤ n ≤ 13)%nat.

Definition is_digit (a : ascii) : bool :=
  let n := nat_of_ascii a in
  bool_decide (48 ≤ n ≤ 57)%nat.

Fixpoint lstrip (s : string) : string :=
  match s with
  | EmptyString => EmptyString
  | String a s' => if is_space a then lstrip s' else s
  end.

Definition strip (s : string) : string :=
  String.rev (lstrip (String.rev (lstrip s))).

Fixpoint digits (acc : Z) (s : string) : option Z :=
  match s with
  | EmptyString => Some acc
  | String a s' =>
      if is_digit a
      then digits (10 * acc + (Z.of_nat (nat_of_ascii a) - 48)) s'
      else None
  end.

Definition unsigned (s : string) : option Z :=
  match s with
  | EmptyString => None
  | _ => digits 0 s
  end.

Definition code (a : ascii) : Z := Z.of_nat (nat_of_ascii a).

(** The bits a continuation byte of UTF-8 carries. *)
Definition continuation (a : ascii) : option Z :=
  if decide (128 ≤ code a < 192) then Some (code a - 128) else None.

(** The code points of a UTF-8 text; [None] when it is not UTF-8. *)
Fixpoint decode_utf8 (s : string) : option (list Z) :=
  match s with
  | EmptyString => Some []
  | String a s1 =>
      let n := code a in
      if decide (n < 128) then cons n <$> decode_utf8 s1
      else if decide (192 ≤ n < 224) then
        match s1 with
        | String b s2 =>
            x ← continuation b;
            cons ((n - 192) * 64 + x) <$> decode_utf8 s2
        | _ => None
        end
      else if decide (224 ≤ n < 240) then
        match s1 with
        | String b (String c s3) =>
            x ← continuation b; y ← continuation c;
            cons ((n - 224) * 4096 + x * 64 + y) <$> decode_utf8 s3
        | _ => None
        end
      else if decide (240 ≤ n < 248) then
        match s1 with
        | String b (String c (String d s4)) =>
            x ← continuation b; y ← continuation c; z ← continuation d;
            cons ((n - 240) * 262144 + x * 4096 + y * 64 + z) <$> decode_utf8 s4
        | _ => None
        end
      else None
  end.

(** What [int] reads for one character: an ASCII character stands for
    itself, a blank beyond ASCII for a space, a decimal digit beyond
    ASCII for the ASCII digit of its value; any other character makes
    the text no number. *)
Definition to_ascii `{Unicode} (cp : Z) : option ascii :=
  if decide (cp < 128) then Some (ascii_of_nat (Z.to_nat cp))
  else if isspace cp then Some " "%char
  else d ← todecimal cp;
       if decide (d < 10)%nat then Some (ascii_of_nat (48 + d)) else None.

Fixpoint transliterate `{Unicode} (cps : list Z) : option string :=
  match cps with
  | [] => Some EmptyString
  | cp :: cps' =>
      a ← to_ascii cp; t ← transliterate cps'; Some (String a t)
  end.

(** [int] on ASCII text: surrounding whitespace is dropped, one sign
    is allowed, then at least one decimal digit. *)
Definition ascii_int (t : string) : option Z :=
  match strip t with
  | String "-" r => Z.opp <$> unsigned r
  | String "+" r => unsigned r
  | u => unsigned u
  end.

(** [int(s)] on the text of an attribute.  lxml gives ASCII text as
    [str] and other text as [unicode]; for the latter [int] first
    turns the blanks and decimal digits of Unicode into ASCII.
    Anything that is not a number is a [ValueError].  (On [unicode]
    the control characters 28 to 31 count as blanks as well; XML text
    cannot contain them.) *)
Definition int `{Unicode} (s : string) : result Z :=
  match cps ← decode_utf8 s; t ← transliterate cps; ascii_int t with
  | Some n => Return n
  | None => Raise ValueError
  end.

Fixpoint is_ascii (s : string) : bool :=
  match s with
  | EmptyString => true
  | String a s' => bool_decide (nat_of_ascii a < 128)%nat && is_ascii s'
  end.

(** [u''.join(lines)] on byte strings: the lines are decoded as ASCII. *)
Definition ujoin (lines : list string) : result string :=
  if forallb is_ascii lines then Return (String.concat EmptyString lines)
  else Raise UnicodeDecodeError.

End Py.

(** ** XML trees as lxml presents them *)

(** An element has a tag, an attribute mapping and children; comments
    and processing instructions appear among the children of an
    element and as siblings of the root. *)
Inductive misc : Type :=
| Comment (text : string)
| ProcessingInstruction (target : string) (text : option string).

#[local] Unset Elimination Schemes.
Inductive element : Type :=
| Element (tag : string) (attrib : gmap string string) (children : list child)
with child : Type :=
| Child (e : element)
| Other (m : misc).
#[local] Set Elimination Schemes.

Definition tag (e : element) : string :=
  match e with Element t _ _ => t end.

Definition attrib (e : element) : gmap string string :=
  match e with Element _ a _ => a end.

Definition children (e : element) : list child :=
  match e with Element _ _ c => c end.

(** [el.text] of a comment or processing instruction; [None] when a
    processing instruction has a target only. *)
Definition text (m : misc) : option string :=
  match m with
  | Comment t => Some t
  | ProcessingInstruction _ t => t
  end.

Definition named (name : string) (c : child) : option element :=
  match c with
  | Child e => if decide (tag e = name) then Some e else None
  | Other _ => None
  end.

(** [el.findall(name)]: the element children with that tag, in
    document order. *)
Definition findall (e : element) (name : string) : list element :=
  omap (named name) (children e).

(** A parsed document: the root element and the comments and processing
    instructions before it. *)
Record etree : Type := ElementTree {
  prolog : list misc;
  getroot : element
}.

(** [tree.getroot().getprevious()]. *)
Definition getprevious (t : etree) : option misc := last (prolog t).

(** ** The platform: XML parser, files and paths *)

Class Platform : Type := {
  (** the Unicode database behind [int] *)
  platform_unicode :: Unicode;
  (** ['%s' % etree.Comment] and ['%s' % etree.ProcessingInstruction]:
      how the two factory functions print in this run *)
  str_Comment : string;
  str_ProcessingInstruction : string;
  (** [os.path.join], [os.path.abspath], [os.path.dirname] *)
  os_path_join : string → string → string;
  os_path_abspath : string → string;
  os_path_dirname : string → string;
  (** [etree.parse(filename)] *)
  etree_parse : string → result etree;
  (** [etree.parse(StringIO(text))] *)
  etree_parse_string : string → result etree;
  (** [file(filename, "r").readlines()] *)
  readlines : string → result (list string);
  (** how many nested redirections [parse_animation] can follow before
      the interpreter's recursion limit is hit *)
  recursion_limit : nat
}.

(** ['%s' % el.tag]: the tag of an element is its name; the [tag] of
    a comment or processing instruction is the factory function. *)
Definition tag_str `{Platform} (c : child) : string :=
  match c with
  | Child e => tag e
  | Other (Comment _) => str_Comment
  | Other (ProcessingInstruction _ _) => str_ProcessingInstruction
  end.

(** ** The definitions the parser builds *)

(** The dict [parse_atlas] returns: keys ["atlas"] and ["images"]. *)
Record atlas_def : Type := AtlasDef {
  atlas : element;
  images : gmap string element
}.

(** The dict [parse_animation] returns.  ["delay"] is present only
    when the animation came through a redirection. *)
Record ani_def : Type := AniDef {
  delay : option string;
  direction : string;
  frames : list string;
  x_offset : string;
  y_offset : string
}.

(** The value of ["atlas"] in the dict of [parse_animation_atlas]. *)
Record atlas_image : Type := AtlasImage {
  image : string;
  width : string;
  height : string
}.

(** One entry of ["directions"] in the dict of [parse_animation_atlas]. *)
Record dir_data : Type := DirData {
  dir_delay : string;
  dir_frames : string
}.

(** The dict [parse_animation_atlas] returns. *)
Record atlas_ani : Type := AtlasAni {
  aa_atlas : atlas_image;
  aa_directions : gmap Z dir_data
}.

(** The dict [parse_animations] returns: ["type"] is ["single"] with
    the keys of an [atlas_ani], or ["multi"] with ["directions"]. *)
Inductive ani_dict : Type :=
| Single (a : atlas_ani)
| Multi (directions : gmap Z ani_def).

Definition ani_type (d : ani_dict) : string :=
  match d with
  | Single _ => "single"
  | Multi _ => "multi"
  end.

(** The dict [parse_object] returns: ["object"] always, and
    ["actions"] or ["directions"] when the branch that sets it ran. *)
Record obj_def : Type := ObjDef {
  object : gmap string string;
  actions : option (gmap string ani_dict);
  directions : option (gmap Z (gmap string string))
}.

Definition nl : string := String "010"%char EmptyString.
Definition dquote : ascii := "034"%char.

(** [s] between double quotes. *)
Definition quoted (s : string) : string :=
  String dquote EmptyString +:+ s +:+ String dquote EmptyString.

(** ** The parsing functions *)

Section Parser.
Context `{Platform}.

(** [parse_atlas(element, root_path)] *)
Definition parse_atlas (element : element) (root_path : string) : result atlas_def :=
  imgs ← for_each
    (λ imgs image,
       image_name ← Py.getitem (attrib image) "source";
       mret (<[image_name := image]> imgs))
    ∅ (findall element "image");
  mret (AtlasDef element imgs).

(** [parse_animation_atlas(animation, root_path)] *)
Definition parse_animation_atlas (animation : element) (root_path : string)
  : result atlas_ani :=
  a ← Py.getitem (attrib animation) "atlas";
  let image := os_path_join root_path a in
  w ← Py.getitem (attrib animation) "width";
  h ← Py.getitem (attrib animation) "height";
  dirs ← for_each
    (λ dirs direction,
       d ← Py.getitem (attrib direction) "dir";
       action_dir ← Py.int d;
       dl ← Py.getitem (attrib direction) "delay";
       fr ← Py.getitem (attrib direction) "frames";
       mret (<[action_dir := DirData dl fr]> dirs))
    ∅ (findall animation "direction");
  mret (AtlasAni (AtlasImage (os_path_abspath image) w h) dirs).

(** The inline branch of [parse_animation]. *)
Definition parse_frames (animation : element) (root_path : string) : result ani_def :=
  frames ← for_each
    (λ frames frame,
       src ← Py.getitem (attrib frame) "source";
       let source := os_path_abspath (os_path_join root_path src) in
       mret (frames ++ [source])%list)
    [] (findall animation "frame");
  id ← Py.getitem (attrib animation) "id";
  dir ← Py.index (Py.split ":" id) 2;
  x ← Py.getitem (attrib animation) "x_offset";
  y ← Py.getitem (attrib animation) "y_offset";
  mret (AniDef None dir frames x y).

(** [ani_dict = {"delay": d}; ani_dict.update(inner)] *)
Definition with_delay (d : string) (inner : ani_def) : ani_def :=
  AniDef (Some (default d (delay inner)))
         (direction inner) (frames inner) (x_offset inner) (y_offset inner).

(** [parse_animation(animation, root_path)].  [depth] bounds the
    redirections followed; beyond it Python raises its
    recursion-depth [RuntimeError]. *)
Fixpoint parse_animation (depth : nat) (animation : element) (root_path : string)
  : result ani_def :=
  match attrib animation !! "source" with
  | Some animation_file =>
      match depth with
      | O => Raise (RuntimeError "maximum recursion depth exceeded")
      | S depth' =>
          let ani_file := os_path_join root_path animation_file in
          let ani_path := os_path_dirname ani_file in
          ani_doc ← etree_parse ani_file;
          let root := getroot ani_doc in
          d ← Py.getitem (attrib root) "delay";
          inner ← parse_animation depth' root ani_path;
          mret (with_delay d inner)
      end
  | None => parse_frames animation root_path
  end.

(** [parse_animations(animations, root_path)] *)
Definition parse_animations (animations : list element) (root_path : string)
  : result ani_dict :=
  first ← Py.index animations 0;
  if Py.contains (attrib first) "atlas" then
    a ← parse_animation_atlas first root_path;
    mret (Single a)
  else
    dirs ← for_each
      (λ dirs animation,
         ani ← parse_animation recursion_limit animation root_path;
         dir ← Py.int (direction ani);
         mret (<[dir := ani]> dirs))
      ∅ animations;
    mret (Multi dirs).

(** [parse_actions(actions, root_path)] *)
Definition parse_actions (actions : list element) (root_path : string)
  : result (gmap string ani_dict) :=
  for_each
    (λ action_dict action,
       animations ← parse_animations (findall action "animation") root_path;
       id ← Py.getitem (attrib action) "id";
       mret (<[id := animations]> action_dict))
    ∅ actions.

(** The body of the loop over the images of a static object, up to
    the resolved [image_def]. *)
Definition parse_image (atlas_def : option atlas_def) (root_path : string)
    (image : element) : result (gmap string string) :=
  let image_sources := from_option images ∅ atlas_def in
  let image_def := attrib image in
  source ← Py.getitem image_def "source";
  image_def ←
    match image_sources !! source with
    | Some entry =>
        let image_def := Py.update image_def (attrib entry) in
        let image_def := <["type" := "atlas"]> image_def in
        a ← from_option (λ ad, Return (atlas ad)) (Raise TypeError) atlas_def;
        name ← Py.getitem (attrib a) "name";
        mret (<["source" := name]> image_def)
    | None => mret (<["type" := "image"]> image_def)
    end;
  src ← Py.getitem image_def "source";
  let source := os_path_join root_path src in
  mret (<["source" := os_path_abspath source]> image_def).

(** [parse_object(obj, root_path, atlas_def=None)] *)
Definition parse_object (obj : element) (root_path : string)
    (atlas_def : option atlas_def) : result obj_def :=
  let object := attrib obj in
  static ← Py.getitem (attrib obj) "static";
  static ← Py.int static;
  if decide (static = 0) then
    acts ← parse_actions (findall obj "action") root_path;
    mret (ObjDef object (Some acts) None)
  else if decide (static = 1) then
    dir_defs ← for_each
      (λ dir_defs image,
         image_def ← parse_image atlas_def root_path image;
         d ← Py.getitem image_def "direction";
         dir ← Py.int d;
         mret (<[dir := image_def]> dir_defs))
      ∅ (findall obj "image");
    mret (ObjDef object None (Some dir_defs))
  else
    first ← Py.index (children obj) 0;
    Raise (RuntimeError ("Don't know how to handle '" +:+ tag_str first +:+ "'")).

(** The [except etree.XMLSyntaxError as e] block of [parse_file]. *)
Definition parse_dual (filename root_path : string) (position : Z * Z)
  : result (list obj_def) :=
  let line_no := position.1 - 2 in
  lines ← readlines filename;
  first_doc ← Py.ujoin (Py.slice_to lines line_no);
  tree ← etree_parse_string first_doc;
  let root := getroot tree in
  pi ← from_option Return (Raise AttributeError) (getprevious tree);
  pi_text ← from_option Return (Raise AttributeError) (text pi);
  declared ← Py.index (Py.split "=" pi_text) 1;
  let file_type := Py.lower (Py.remove_char dquote declared) in
  if decide (file_type = "atlas") then
    atlas_def ← parse_atlas root root_path;
    let second_doc := Py.slice_from lines (line_no + 1) in
    let second_doc := ("<objects>" +:+ nl) :: (second_doc ++ ["</objects>" +:+ nl])%list in
    second_doc ← Py.ujoin second_doc;
    tree ← etree_parse_string second_doc;
    for_each
      (λ objects obj,
         o ← parse_object obj root_path (Some atlas_def);
         mret (objects ++ [o])%list)
      [] (findall (getroot tree) "object")
  else
    Raise (RuntimeError ("Unexpected file format '" +:+ filename +:+ "'")).

(** The [try] block of [parse_file]. *)
Definition parse_single (filename root_path : string) : result (list obj_def) :=
  tree ← etree_parse filename;
  o ← parse_object (getroot tree) root_path None;
  mret [o].

(** [parse_file(filename)] *)
Definition parse_file (filename : string) : result (list obj_def) :=
  let root_path := os_path_dirname filename in
  match parse_single filename root_path with
  | Raise (XMLSyntaxError position) => parse_dual filename root_path position
  | r => r
  end.

End Parser.

(** ** Well-formed object definitions

    What the file format asks of an object element: the attributes
    and children each parsing function reads are there and the
    numbers are numbers.  The predicates are boolean, so they can be
    evaluated on a document. *)

Section WellFormed.
Context `{Platform}.

Definition has_attr (e : element) (k : string) : bool :=
  bool_decide (is_Some (attrib e !! k)).

Definition is_int (s : string) : bool :=
  match Py.int s with
  | Return _ => true
  | Raise _ => false
  end.

Definition int_valued (d : gmap string string) (k : string) : bool :=
  from_option is_int false (d !! k).

(** An [image] of a static object: it names its [source]; when the
    atlas index knows the source, the atlas has a [name]; and the
    [direction], read after the atlas entry's attributes are merged
    in, is an integer. *)
Definition wf_image (atlas_def : option atlas_def) (image : element) : bool :=
  match attrib image !! "source" with
  | None => false
  | Some source =>
      match atlas_def with
      | None => int_valued (attrib image) "direction"
      | Some ad =>
          match images ad !! source with
          | Some entry =>
              has_attr (atlas ad) "name"
              && int_valued (attrib entry ∪ attrib image) "direction"
          | None => int_valued (attrib image) "direction"
          end
      end
  end.

(** An inline [animation]: frames with a [source], an [id] whose
    third colon-separated segment is an integer, and both offsets. *)
Definition wf_inline (animation : element) : bool :=
  forallb (λ frame, has_attr frame "source") (findall animation "frame")
  && from_option
       (λ id, from_option is_int false (Py.split ":" id !! 2%nat))
       false (attrib animation !! "id")
  && has_attr animation "x_offset"
  && has_attr animation "y_offset".

(** An [animation] that may redirect to a file: the file parses, its
    root has a [delay], and the root is a well-formed animation
    itself, within [depth] redirections. *)
Fixpoint wf_animation (depth : nat) (animation : element) (root_path : string)
  : bool :=
  match attrib animation !! "source" with
  | Some animation_file =>
      match depth with
      | O => false
      | S depth' =>
          let ani_file := os_path_join root_path animation_file in
          match etree_parse ani_file with
          | Return ani_doc =>
              has_attr (getroot ani_doc) "delay"
              && wf_animation depth' (getroot ani_doc) (os_path_dirname ani_file)
          | Raise _ => false
          end
      end
  | None => wf_inline animation
  end.

Definition wf_direction (direction : element) : bool :=
  int_valued (attrib direction) "dir"
  && has_attr direction "delay"
  && has_attr direction "frames".

Definition wf_atlas_animation (animation : element) : bool :=
  has_attr animation "atlas"
  && has_attr animation "width"
  && has_attr animation "height"
  && forallb wf_direction (findall animation "direction").

(** The animations of an action: at least one; an atlas animation
    first, or frame animations throughout. *)
Definition wf_animations (animations : list element) (root_path : string) : bool :=
  match animations with
  | [] => false
  | first :: _ =>
      if Py.contains (attrib first) "atlas" then wf_atlas_animation first
      else forallb (λ a, wf_animation recursion_limit a root_path) animations
  end.

Definition wf_action (root_path : string) (action : element) : bool :=
  wf_animations (findall action "animation") root_path
  && has_attr action "id".

(** An [object]: [static] reads as 0 with well-formed actions, or
    as 1 with well-formed images. *)
Definition wf_object (obj : element) (root_path : string)
    (atlas_def : option atlas_def) : bool :=
  match Py.int <$> attrib obj !! "static" with
  | Some (Return 0) => forallb (wf_action root_path) (findall obj "action")
  | Some (Return 1) => forallb (wf_image atlas_def) (findall obj "image")
  | _ => false
  end.

End WellFormed.

(** ** Entries of the direction-keyed mappings and kinds of error *)

Section Entries.
Context `{Platform}.

(** What one [image] of a static object contributes to
    ["directions"]: the key and the value the loop stores. *)
Definition image_entry (atlas_def : option atlas_def) (root_path : string)
    (image : element) : result (Z * gmap string string) :=
  image_def ← parse_image atlas_def root_path image;
  d ← Py.getitem image_def "direction";
  dir ← Py.int d;
  mret (dir, image_def).

(** What one [animation] of a multi-frame action contributes. *)
Definition animation_entry (root_path : string) (animation : element)
  : result (Z * ani_def) :=
  ani ← parse_animation recursion_limit animation root_path;
  dir ← Py.int (direction ani);
  mret (dir, ani).

(** What one [direction] of an atlas animation contributes. *)
Definition direction_entry (direction : element) : result (Z * dir_data) :=
  d ← Py.getitem (attrib direction) "dir";
  action_dir ← Py.int d;
  dl ← Py.getitem (attrib direction) "delay";
  fr ← Py.getitem (attrib direction) "frames";
  mret (action_dir, DirData dl fr).

(** What one [action] contributes to the mapping of [parse_actions]. *)
Definition action_entry (root_path : string) (action : element)
  : result (string * ani_dict) :=
  animations ← parse_animations (findall action "animation") root_path;
  id ← Py.getitem (attrib action) "id";
  mret (id, animations).

(** The frame paths of an inline animation: the [source] of each
    [frame] child, made absolute from [root_path], in document order. *)
Definition frame_paths (animation : element) (root_path : string) : list string :=
  omap (λ frame,
          (λ src, os_path_abspath (os_path_join root_path src))
            <$> attrib frame !! "source")
       (findall animation "frame").

End Entries.

(** The images of an atlas element that name [source]. *)
Definition images_named (source : string) (atlas : element) : list element :=
  filter (λ image, attrib image !! "source" = Some source) (findall atlas "image").

(** [c in s] for a character. *)
Fixpoint has_char (c : ascii) (s : string) : bool :=
  match s with
  | EmptyString => false
  | String a s' => bool_decide (a = c) || has_char c s'
  end.

(** [type(e).__name__]: the class of an exception.  The module
    defines no exception class of its own; what it raises itself is
    [RuntimeError], everything else comes from Python and lxml. *)
Definition class_name (e : exn) : string :=
  match e with
  | XMLSyntaxError _ => "XMLSyntaxError"
  | IOError => "IOError"
  | KeyError _ => "KeyError"
  | ValueError => "ValueError"
  | IndexError => "IndexError"
  | AttributeError => "AttributeError"
  | TypeError => "TypeError"
  | UnicodeDecodeError => "UnicodeDecodeError"
  | RuntimeError _ => "RuntimeError"
  end.

(** The exception an inline animation with a short [id] ends in:
    the frame loop runs before the [id] is read. *)
Definition short_id_error (animation : element) : exn :=
  if forallb (λ frame, has_attr frame "source") (findall animation "frame")
  then IndexError else KeyError "source".

Definition UnsupportedObjectKind (tag : string) : exn :=
  RuntimeError ("Don't know how to handle '" +:+ tag +:+ "'").

Definition UnexpectedFileFormat (filename : string) : exn :=
  RuntimeError ("Unexpected file format '" +:+ filename +:+ "'").

(** The second document [parse_file] makes of a file: the lines after
    line [line_no + 1], wrapped in an [objects] element. *)
Definition wrapped (lines : list string) (line_no : Z) : list string :=
  ("<objects>" +:+ nl) :: Py.slice_from lines (line_no + 1)
    ++ ["</objects>" +:+ nl].

(** ** [os.path] on POSIX *)

Module Posix.

Definition starts_with_slash (s : string) : bool :=
  match s with
  | String "/" _ => true
  | _ => false
  end.

(** [posixpath.join(a, b)] *)
Definition join (a b : string) : string :=
  if starts_with_slash b then b
  else if decide (a = EmptyString) then b
  else if starts_with_slash (String.rev a) then a +:+ b
  else a +:+ "/" +:+ b.

Fixpoint from_slash (s : string) : string :=
  match s with
  | EmptyString => EmptyString
  | String a s' => if decide (a = "/"%char) then s else from_slash s'
  end.

Fixpoint lstrip_slash (s : string) : string :=
  match s with
  | String "/" s' => lstrip_slash s'
  | _ => s
  end.

(** [posixpath.dirname(p)]: [p] up to its last slash, without
    trailing slashes unless it consists of slashes only. *)
Definition dirname (p : string) : string :=
  let head := from_slash (String.rev p) in
  match lstrip_slash head with
  | EmptyString => String.rev head
  | stripped => String.rev stripped
  end.

(** The loop of [posixpath.normpath] over the components. *)
Definition norm_step (rooted : bool) (new_comps : list string) (comp : string)
  : list string :=
  if decide (comp = EmptyString ∨ comp = ".") then new_comps
  else if decide (comp ≠ ".."
                  ∨ (rooted = false ∧ new_comps = [])
                  ∨ last new_comps = Some "..")
       then (new_comps ++ [comp])%list
       else removelast new_comps.

(** [posixpath.normpath(path)] *)
Definition normpath (path : string) : string :=
  match path with
  | EmptyString => "."
  | _ =>
      let rooted := starts_with_slash path in
      let initial :=
        match path with
        | String "/" (String "/" (String "/" _)) => "/"
        | String "/" (String "/" _) => "//"
        | String "/" _ => "/"
        | _ => EmptyString
        end in
      let comps := foldl (norm_step rooted) [] (Py.split "/" path) in
      match initial +:+ String.concat "/" comps with
      | EmptyString => "."
      | p => p
      end
  end.

(** [posixpath.abspath(path)] in working directory [cwd]. *)
Definition abspath (cwd path : string) : string :=
  normpath (if starts_with_slash path then path else join cwd path).

End Posix.

(** ** Concrete platforms *)

Module Fixtures.

(** A platform over a table of files, kept as the lines [readlines]
    gives, and a table that records what the XML parser answers on
    each text it is given. *)
Definition lookup_text (table : list (string * result etree)) (text : string)
  : result etree :=
  match list_find (λ entry, entry.1 = text) table with
  | Some (_, (_, r)) => r
  | None => Raise (XMLSyntaxError (1, 1))
  end.

(** The characters beyond ASCII the fixtures use: the Arabic-Indic
    and the fullwidth digits, the no-break and the ideographic space. *)
Definition unicode : Unicode := {|
  todecimal cp :=
    if decide (1632 ≤ cp ≤ 1641) then Some (Z.to_nat (cp - 1632))
    else if decide (65296 ≤ cp ≤ 65305) then Some (Z.to_nat (cp - 65296))
    else None;
  isspace cp := bool_decide (cp = 160 ∨ cp = 12288)
|}.

Definition platform (cwd : string) (files : gmap string (list string))
    (xml : list (string * result etree)) (limit : nat) : Platform := {|
  platform_unicode := unicode;
  str_Comment := "<cyfunction Comment at 0x7f3a5c1e2040>";
  str_ProcessingInstruction := "<cyfunction ProcessingInstruction at 0x7f3a5c1e2110>";
  os_path_join := Posix.join;
  os_path_abspath := Posix.abspath cwd;
  os_path_dirname := Posix.dirname;
  etree_parse path :=
    match files !! path with
    | Some lines => lookup_text xml (String.concat EmptyString lines)
    | None => Raise IOError
    end;
  etree_parse_string := lookup_text xml;
  readlines path :=
    match files !! path with
    | Some lines => Return lines
    | None => Raise IOError
    end;
  recursion_limit := limit
|}.

Definition elem (tag : string) (attrs : list (string * string))
    (children : list element) : element :=
  Element tag (list_to_map attrs) (Child <$> children).

Definition line (s : string) : string := s +:+ nl.

(** *** A static object in a file of its own *)

Definition tree_lines : list string := line <$> [
  "<object id='tree' namespace='demo' static='1'>";
  "  <image source='tree_0.png' direction='0'/>";
  "  <image source='tree_90.png' direction='90'/>";
  "</object>" ].

Definition tree_object : element :=
  elem "object" [("id", "tree"); ("namespace", "demo"); ("static", "1")] [
    elem "image" [("source", "tree_0.png"); ("direction", "0")] [];
    elem "image" [("source", "tree_90.png"); ("direction", "90")] [] ].

(** *** An object with actions, one of them in a file of its own *)

Definition girl_lines : list string := line <$> [
  "<object id='girl' static='0'>";
  "  <action id='walk'>";
  "    <animation source='walk/animation.xml'/>";
  "  </action>";
  "  <action id='stand'>";
  "    <animation atlas='stand.png' width='32' height='64'>";
  "      <direction dir='0' delay='100' frames='4'/>";
  "      <direction dir='90' delay='120' frames='4'/>";
  "    </animation>";
  "  </action>";
  "</object>" ].

Definition walk_action : element :=
  elem "action" [("id", "walk")] [
    elem "animation" [("source", "walk/animation.xml")] [] ].

Definition stand_animation : element :=
  elem "animation" [("atlas", "stand.png"); ("width", "32"); ("height", "64")] [
    elem "direction" [("dir", "0"); ("delay", "100"); ("frames", "4")] [];
    elem "direction" [("dir", "90"); ("delay", "120"); ("frames", "4")] [] ].

Definition stand_action : element :=
  elem "action" [("id", "stand")] [stand_animation].

Definition girl_object : element :=
  elem "object" [("id", "girl"); ("static", "0")] [walk_action; stand_action].

Definition walk_lines : list string := line <$> [
  "<animation delay='100' id='girl:walk:0' x_offset='0' y_offset='-10'>";
  "  <frame source='w0.png'/>";
  "  <frame source='w1.png'/>";
  "</animation>" ].

Definition walk_animation : element :=
  elem "animation"
    [("delay", "100"); ("id", "girl:walk:0"); ("x_offset", "0"); ("y_offset", "-10")] [
    elem "frame" [("source", "w0.png")] [];
    elem "frame" [("source", "w1.png")] [] ].

(** *** An atlas and its objects in one file

    The file is not one XML document: the parser stops at the first
    [object], line 7, with extra content after the root element. *)

Definition trees_lines : list string := line <$> [
  "<?fife type=" +:+ quoted "atlas" +:+ "?>";
  "<atlas name='trees.png' width='256' height='128'>";
  "  <image source='oak.png' xpos='0' ypos='0' width='128' height='128'/>";
  "  <image source='pine.png' xpos='128' ypos='0' width='128' height='128'/>";
  "</atlas>";
  "<?fife type=" +:+ quoted "object" +:+ "?>";
  "<object id='oak' static='1'><image source='oak.png' direction='0'/></object>";
  "<object id='pine' static='1'><image source='pine.png' direction='0'/></object>" ].

Definition oak_image : element :=
  elem "image" [("source", "oak.png"); ("xpos", "0"); ("ypos", "0");
                ("width", "128"); ("height", "128")] [].
Definition pine_image : element :=
  elem "image" [("source", "pine.png"); ("xpos", "128"); ("ypos", "0");
                ("width", "128"); ("height", "128")] [].

Definition trees_atlas : element :=
  elem "atlas" [("name", "trees.png"); ("width", "256"); ("height", "128")]
    [oak_image; pine_image].

Definition oak_picture : element :=
  elem "image" [("source", "oak.png"); ("direction", "0")] [].
Definition oak_object : element :=
  elem "object" [("id", "oak"); ("static", "1")] [oak_picture].
Definition pine_object : element :=
  elem "object" [("id", "pine"); ("static", "1")] [
    elem "image" [("source", "pine.png"); ("direction", "0")] [] ].

Definition atlas_pi : misc :=
  ProcessingInstruction "fife" (Some ("type=" +:+ quoted "atlas")).
Definition object_pi : misc :=
  ProcessingInstruction "fife" (Some ("type=" +:+ quoted "object")).

(** *** The layout with the atlas first and the processing
    instruction between the atlas and the objects

    Again not one document: the parser stops at line 6. *)

Definition shrubs_lines : list string := line <$> [
  "<atlas name='shrubs.png' width='64' height='32'>";
  "  <image source='fern.png' xpos='0' ypos='0' width='32' height='32'/>";
  "  <image source='moss.png' xpos='32' ypos='0' width='32' height='32'/>";
  "</atlas>";
  "<?fife type=" +:+ quoted "atlas" +:+ "?>";
  "<object id='fern' static='1'><image source='fern.png' direction='0'/></object>";
  "<object id='moss' static='1'><image source='moss.png' direction='0'/></object>" ].

Definition shrubs_atlas : element :=
  elem "atlas" [("name", "shrubs.png"); ("width", "64"); ("height", "32")] [
    elem "image" [("source", "fern.png"); ("xpos", "0"); ("ypos", "0");
                  ("width", "32"); ("height", "32")] [];
    elem "image" [("source", "moss.png"); ("xpos", "32"); ("ypos", "0");
                  ("width", "32"); ("height", "32")] [] ].

(** *** A well-formed object file whose animation file is broken

    [guard.xml] is one XML document; [guard_walk.xml] closes its
    root with the wrong tag on line 4. *)

Definition guard_lines : list string := line <$> [
  "<?fife type=" +:+ quoted "object" +:+ "?>";
  "<object id='guard' static='0'><action id='walk'><animation source='guard_walk.xml'/></action></object>" ].

Definition guard_object : element :=
  elem "object" [("id", "guard"); ("static", "0")] [
    elem "action" [("id", "walk")] [
      elem "animation" [("source", "guard_walk.xml")] [] ] ].

Definition guard_walk_lines : list string := line <$> [
  "<animation delay='100' id='guard:walk:0' x_offset='0' y_offset='0'>";
  "  <frame source='g0.png'/>";
  "  <frame source='g1.png'/>";
  "</animatio>" ].

(** *** Single elements *)

(** An object whose [static] is written with a leading zero. *)
Definition rock_object : element :=
  elem "object" [("id", "rock"); ("static", "01")] [
    elem "image" [("source", "rock.png"); ("direction", "0")] [] ].

(** An object of an unknown kind. *)
Definition portal_image : element :=
  elem "image" [("source", "portal.png"); ("direction", "0")] [].
Definition portal_object : element :=
  elem "object" [("id", "portal"); ("static", "2")] [portal_image].

(** The index [parse_atlas] builds for [trees_atlas]. *)
Definition trees_index : atlas_def :=
  AtlasDef trees_atlas
    (list_to_map [("oak.png", oak_image); ("pine.png", pine_image)]).

(** Two images and two frame animations for the same direction. *)
Definition sign_old : element :=
  elem "image" [("source", "sign_old.png"); ("direction", "45")] [].
Definition sign_new : element :=
  elem "image" [("source", "sign_new.png"); ("direction", "45")] [].
Definition sign_object : element :=
  elem "object" [("id", "sign"); ("static", "1")] [sign_old; sign_new].

Definition run_old : element :=
  elem "animation" [("id", "girl:run:45"); ("x_offset", "0"); ("y_offset", "0")] [
    elem "frame" [("source", "old0.png")] [] ].
Definition run_new : element :=
  elem "animation" [("id", "girl:run:045"); ("x_offset", "1"); ("y_offset", "2")] [
    elem "frame" [("source", "new0.png")] [] ].

Definition spin_old : element :=
  elem "direction" [("dir", "45"); ("delay", "50"); ("frames", "2")] [].
Definition spin_new : element :=
  elem "direction" [("dir", "45"); ("delay", "75"); ("frames", "3")] [].
Definition spin_animation : element :=
  elem "animation" [("atlas", "spin.png"); ("width", "16"); ("height", "16")]
    [spin_old; spin_new].

(** An inline animation whose [id] has two segments, in an action. *)
Definition short_animation : element :=
  elem "animation" [("id", "girl:run"); ("x_offset", "0"); ("y_offset", "0")] [
    elem "frame" [("source", "r0.png")] [] ].

(** An action without animations. *)
Definition idle_action : element := elem "action" [("id", "idle")] [].

Definition text_of (lines : list string) : string :=
  String.concat EmptyString lines.

Definition files : gmap string (list string) := list_to_map [
  ("/project/objects/tree.xml", tree_lines);
  ("/project/objects/girl.xml", girl_lines);
  ("/project/objects/walk/animation.xml", walk_lines);
  ("/project/objects/trees.xml", trees_lines);
  ("/project/objects/shrubs.xml", shrubs_lines);
  ("/project/objects/guard.xml", guard_lines);
  ("/project/objects/guard_walk.xml", guard_walk_lines) ].

(** What lxml answers on the texts above and on the slices
    [parse_file] makes of them. *)
Definition xml : list (string * result etree) := [
  (text_of tree_lines, Return (ElementTree [] tree_object));
  (text_of girl_lines, Return (ElementTree [] girl_object));
  (text_of walk_lines, Return (ElementTree [] walk_animation));
  (text_of trees_lines, Raise (XMLSyntaxError (7, 1)));
  (text_of (take 5 trees_lines), Return (ElementTree [atlas_pi] trees_atlas));
  (text_of (line "<objects>" :: drop 6 trees_lines ++ [line "</objects>"])%list,
   Return (ElementTree [] (elem "objects" [] [oak_object; pine_object])));
  (text_of shrubs_lines, Raise (XMLSyntaxError (6, 1)));
  (text_of (take 4 shrubs_lines), Return (ElementTree [] shrubs_atlas));
  (text_of guard_lines, Return (ElementTree [object_pi] guard_object));
  (text_of guard_walk_lines, Raise (XMLSyntaxError (4, 13))) ].

Definition world : Platform := platform "/project" files xml 100.

(** The directory of the files above. *)
Definition objects_dir : string := "/project/objects".

(** *** An animation file that redirects to itself *)

Definition loop_lines : list string := line <$> [
  "<animation delay='100' source='loop.xml'/>" ].

Definition loop_animation : element :=
  elem "animation" [("delay", "100"); ("source", "loop.xml")] [].

Definition loop_world : Platform :=
  platform "/project"
    (list_to_map [("/project/objects/loop.xml", loop_lines)])
    [(text_of loop_lines, Return (ElementTree [] loop_animation))] 100.

(** *** An atlas whose entry carries a direction of its own *)

Definition north_image : element :=
  elem "image" [("source", "north.png"); ("direction", "90"); ("xpos", "0")] [].

Definition compass_index : atlas_def :=
  AtlasDef (elem "atlas" [("name", "compass.png")] [north_image])
    (list_to_map [("north.png", north_image)]).

Definition needle_image : element :=
  elem "image" [("source", "north.png"); ("direction", "0")] [].

(** *** An object of an unknown kind in a file of its own *)

Definition portal_lines : list string := line <$> [
  "<object id='portal' static='2'>";
  "  <image source='portal.png' direction='0'/>";
  "</object>" ].

Definition portal_world : Platform :=
  platform "/project"
    (list_to_map [("/project/objects/portal.xml", portal_lines)])
    [(text_of portal_lines, Return (ElementTree [] portal_object))] 100.

(** *** Two images that declare direction 0, the second one known to
    the atlas above *)

Definition south_image : element :=
  elem "image" [("source", "south.png"); ("direction", "0")] [].

Definition dial_object : element :=
  elem "object" [("id", "dial"); ("static", "1")] [south_image; needle_image].

(** *** A static object whose image has no direction *)

Definition bare_object : element :=
  elem "object" [("id", "bare"); ("static", "1")] [
    elem "image" [("source", "bare.png")] [] ].

End Fixtures.

(** ** The result monad and loops *)

Lemma bind_Return {A B} (r : result A) (f : A → result B) (b : B) :
  r ≫= f = Return b → ∃ a, r = Return a ∧ f a = Return b.
Proof. destruct r as [a|e]; [eauto | discriminate]. Qed.

Lemma bind_Raise {A B} (r : result A) (f : A → result B) (e : exn) :
  r = Raise e → r ≫= f = Raise e.
Proof. by intros ->. Qed.

Lemma bind_eq {A B} (r : result A) (f : A → result B) (a : A) :
  r = Return a → r ≫= f = f a.
Proof. by intros ->. Qed.

Lemma is_Return_bind {A B} (r : result A) (f : A → result B) :
  is_Return r → (∀ a, r = Return a → is_Return (f a)) → is_Return (r ≫= f).
Proof. intros [a ->] Hf. by apply Hf. Qed.

(** Splits a hypothesis [x ← r; k = Return b] into its steps. *)
Ltac inv_bind H :=
  repeat match type of H with
  | _ ≫= _ = Return _ =>
      let a := fresh "a" in
      let Ha := fresh "Ha" in
      apply bind_Return in H as (a & Ha & H)
  end.

Lemma for_each_app {A S} (body : S → A → result S) (s : S) (xs ys : list A) :
  for_each body s (xs ++ ys) = for_each body s xs ≫= λ s', for_each body s' ys.
Proof.
  revert s. induction xs as [|x xs IH]; intros s; simpl; [done|].
  destruct (body s x) as [s'|e]; simpl; [apply IH | done].
Qed.

Lemma for_each_is_Return {A S} (body : S → A → result S) (s : S) (xs : list A) :
  (∀ s x, x ∈ xs → is_Return (body s x)) → is_Return (for_each body s xs).
Proof.
  revert s. induction xs as [|x xs IH]; intros s Hbody; simpl.
  - by exists s.
  - destruct (Hbody s x) as [s' ->]; [left|]. simpl.
    apply IH. intros s'' y Hy. apply Hbody. by right.
Qed.

Section Keyed.
Context {A V K : Type} `{Countable K}.
Variable entry : A → result (K * V).
Variable body : gmap K V → A → result (gmap K V).
Hypothesis body_entry :
  ∀ m x, body m x = entry x ≫= λ kv, Return (<[kv.1 := kv.2]> m).

(** A loop that stores [entry x] under its key keeps, for each key,
    the value of the last element with that key. *)
Lemma for_each_last_wins (xs pre post : list A) (x : A) (k : K) (v : V)
    (m0 m : gmap K V) :
  for_each body m0 xs = Return m →
  xs = pre ++ x :: post →
  entry x = Return (k, v) →
  (∀ y v', y ∈ post → entry y ≠ Return (k, v')) →
  m !! k = Some v.
Proof.
  intros Hrun -> Hx Hpost.
  rewrite for_each_app in Hrun. apply bind_Return in Hrun as (m1 & _ & Hrun).
  simpl in Hrun. rewrite body_entry, Hx in Hrun. simpl in Hrun.
  assert (Hk : <[k:=v]> m1 !! k = Some v) by apply lookup_insert_eq.
  revert Hrun Hk. generalize (<[k:=v]> m1). clear Hx m1.
  induction post as [|y post IH]; intros m1 Hrun Hk; simpl in Hrun.
  - by inversion Hrun; subst.
  - rewrite body_entry in Hrun. apply bind_Return in Hrun as (m2 & Hy & Hrun).
    apply bind_Return in Hy as ([k' v'] & Hy & Hm2). simpl in Hm2.
    inversion Hm2; subst m2; clear Hm2.
    apply (IH (λ z w Hz, Hpost z w (list_elem_of_further _ _ _ Hz))
             _ Hrun).
    rewrite lookup_insert_ne; [done|].
    intros ->. by apply (Hpost y v'); [left|].
Qed.

(** Keys no element produces stay as they were. *)
Lemma for_each_untouched (xs : list A) (k : K) (m0 m : gmap K V) :
  for_each body m0 xs = Return m →
  (∀ y v', y ∈ xs → entry y ≠ Return (k, v')) →
  m !! k = m0 !! k.
Proof.
  revert m0. induction xs as [|x xs IH]; intros m0 Hrun Hxs; simpl in Hrun.
  - by inversion Hrun.
  - rewrite body_entry in Hrun. apply bind_Return in Hrun as (m1 & Hx & Hrun).
    apply bind_Return in Hx as ([k' v'] & Hx & Hm1). simpl in Hm1.
    inversion Hm1; subst m1; clear Hm1.
    rewrite (IH _ Hrun); [|intros y w Hy; apply Hxs; by right].
    apply lookup_insert_ne. intros ->. by apply (Hxs x v'); [left|].
Qed.

Lemma for_each_keyed_is_Return (xs : list A) (m0 : gmap K V) :
  (∀ x, x ∈ xs → is_Return (entry x)) → is_Return (for_each body m0 xs).
Proof.
  intros Hxs. apply for_each_is_Return. intros m x Hx.
  rewrite body_entry. destruct (Hxs x Hx) as [kv ->]. by eexists.
Qed.
End Keyed.

(** ** Animations and actions *)

Section Animations.
Context `{Platform}.

Lemma contains_true {V} (d : gmap string V) (k : string) :
  Py.contains d k = true ↔ is_Some (d !! k).
Proof. unfold Py.contains. by rewrite bool_decide_eq_true. Qed.

Lemma contains_false {V} (d : gmap string V) (k : string) :
  Py.contains d k = false ↔ d !! k = None.
Proof.
  unfold Py.contains. rewrite bool_decide_eq_false.
  by rewrite eq_None_not_Some.
Qed.

Lemma getitem_Some {V} (d : gmap string V) (k : string) (v : V) :
  d !! k = Some v → Py.getitem d k = Return v.
Proof. unfold Py.getitem. by intros ->. Qed.

Lemma getitem_None {V} (d : gmap string V) (k : string) :
  d !! k = None → Py.getitem d k = Raise (KeyError k).
Proof. unfold Py.getitem. by intros ->. Qed.

Lemma has_attr_Some (e : element) (k v : string) :
  attrib e !! k = Some v → has_attr e k = true.
Proof. intros Hk. unfold has_attr. rewrite Hk. apply bool_decide_eq_true_2. eauto. Qed.

Lemma has_attr_None (e : element) (k : string) :
  attrib e !! k = None → has_attr e k = false.
Proof.
  intros Hk. unfold has_attr. rewrite Hk.
  apply bool_decide_eq_false_2. by intros [? ?].
Qed.

Lemma has_attr_true (e : element) (k : string) :
  has_attr e k = true → ∃ v, attrib e !! k = Some v.
Proof. unfold has_attr. intros [v Hv]%bool_decide_eq_true. eauto. Qed.

Lemma animations_body_entry (root_path : string) (m : gmap Z ani_def)
    (animation : element) :
  (ani ← parse_animation recursion_limit animation root_path;
   dir ← Py.int (direction ani);
   mret (<[dir := ani]> m))
  = animation_entry root_path animation ≫= λ kv, Return (<[kv.1 := kv.2]> m).
Proof.
  unfold animation_entry.
  destruct (parse_animation _ _ _) as [ani|e]; simpl; [|done].
  by destruct (Py.int _).
Qed.

(** An animation list that starts with an atlas animation is parsed
    from that element alone. *)
Lemma parse_animations_single (first : element) (rest : list element)
    (root_path : string) :
  is_Some (attrib first !! "atlas") →
  parse_animations (first :: rest) root_path
  = parse_animation_atlas first root_path ≫= λ a, Return (Single a).
Proof.
  intros Hatlas. unfold parse_animations. simpl.
  by rewrite (proj2 (contains_true _ _) Hatlas).
Qed.

Lemma parse_animations_multi (first : element) (rest : list element)
    (root_path : string) :
  attrib first !! "atlas" = None →
  parse_animations (first :: rest) root_path
  = for_each (λ dirs animation,
                ani ← parse_animation recursion_limit animation root_path;
                dir ← Py.int (direction ani);
                mret (<[dir := ani]> dirs)) ∅ (first :: rest)
    ≫= λ dirs, Return (Multi dirs).
Proof.
  intros Hatlas. unfold parse_animations. simpl.
  by rewrite (proj2 (contains_false _ _) Hatlas).
Qed.

Lemma parse_animations_kind (first : element) (rest : list element)
    (root_path : string) (d : ani_dict) :
  parse_animations (first :: rest) root_path = Return d →
  ani_type d = if Py.contains (attrib first) "atlas" then "single" else "multi".
Proof.
  unfold parse_animations. simpl.
  destruct (Py.contains _ _); intros Hd; inv_bind Hd; by inversion Hd.
Qed.

(** [parse_animations] of no animations at all. *)
Lemma parse_animations_nil (root_path : string) :
  parse_animations [] root_path = Raise IndexError.
Proof. done. Qed.

Lemma parse_actions_app (pre post : list element) (root_path : string) :
  parse_actions (pre ++ post) root_path
  = parse_actions pre root_path ≫= λ action_dict,
      for_each
        (λ action_dict action,
           animations ← parse_animations (findall action "animation") root_path;
           id ← Py.getitem (attrib action) "id";
           mret (<[id := animations]> action_dict))
        action_dict post.
Proof. unfold parse_actions. apply for_each_app. Qed.

Lemma parse_actions_no_animations (action : element) (post : list element)
    (root_path : string) (parsed : gmap string ani_dict) :
  findall action "animation" = [] →
  for_each
    (λ action_dict action,
       animations ← parse_animations (findall action "animation") root_path;
       id ← Py.getitem (attrib action) "id";
       mret (<[id := animations]> action_dict))
    parsed (action :: post) = Raise IndexError.
Proof. intros Hnone. simpl. by rewrite Hnone. Qed.

(** C9: an action without animation children makes [parse_actions]
    fail with Python's [IndexError], raised when [parse_animations]
    reads [animations[0]] of the empty list: this is what happens as
    soon as the actions before it have been parsed, whatever follows
    it, and with such an action in the list [parse_actions] never
    returns a mapping, empty or not. *)
Theorem C9_action_without_animations (pre post : list element)
    (action : element) (root_path : string) (parsed : gmap string ani_dict) :
  findall action "animation" = [] →
  parse_actions pre root_path = Return parsed →
  parse_animations (findall action "animation") root_path = Raise IndexError
  ∧ parse_actions (pre ++ action :: post) root_path = Raise IndexError
  ∧ (∀ actions, action ∈ actions →
       ¬ is_Return (parse_actions actions root_path)).
Proof.
  intros Hnone Hpre. split; [by rewrite Hnone|]. split.
  - rewrite parse_actions_app, Hpre. simpl.
    by rewrite Hnone.
  - intros actions (l1 & l2 & ->)%list_elem_of_split [m Hm].
    rewrite parse_actions_app in Hm.
    apply bind_Return in Hm as (m1 & _ & Hm).
    by rewrite parse_actions_no_animations in Hm.
Qed.

(** The loop over the frames either collects every resolved path
    or stops at the first frame without a [source]. *)
Lemma frames_loop (root_path : string) (frames : list element) (acc : list string) :
  for_each
    (λ frames frame,
       src ← Py.getitem (attrib frame) "source";
       let source := os_path_abspath (os_path_join root_path src) in
       mret (frames ++ [source]))
    acc frames
  = if forallb (λ frame, has_attr frame "source") frames
    then Return (acc ++ omap (λ frame,
                   (λ src, os_path_abspath (os_path_join root_path src))
                     <$> attrib frame !! "source") frames)
    else Raise (KeyError "source").
Proof.
  revert acc. induction frames as [|frame frames IH]; intros acc; simpl.
  - by rewrite app_nil_r.
  - cbn [for_each forallb omap list_omap].
    destruct (attrib frame !! "source") as [src|] eqn:Hsrc.
    + rewrite (getitem_Some _ _ _ Hsrc), (has_attr_Some _ _ _ Hsrc).
      cbn [mbind result_bind mret result_ret andb fmap option_fmap option_map].
      rewrite IH. destruct (forallb _ _); [|done].
      by rewrite <- app_assoc.
    + by rewrite (getitem_None _ _ Hsrc), (has_attr_None _ _ Hsrc).
Qed.

Lemma parse_frames_short_id (animation : element) (root_path id : string) :
  attrib animation !! "id" = Some id →
  (length (Py.split ":" id) < 3)%nat →
  parse_frames animation root_path = Raise (short_id_error animation).
Proof.
  intros Hid Hshort. unfold parse_frames, short_id_error.
  rewrite frames_loop. destruct (forallb _ _); [|done]. simpl.
  rewrite (getitem_Some _ _ _ Hid). simpl.
  unfold Py.index. by rewrite lookup_ge_None_2 by lia.
Qed.

Lemma parse_animations_raise (animation : element) (rest : list element)
    (root_path : string) (e : exn) :
  attrib animation !! "atlas" = None →
  parse_animation recursion_limit animation root_path = Raise e →
  parse_animations (animation :: rest) root_path = Raise e.
Proof.
  intros Hatlas He. rewrite parse_animations_multi by done.
  simpl. by rewrite He.
Qed.

Lemma parse_actions_raise (action : element) (rest : list element)
    (root_path : string) (e : exn) :
  parse_animations (findall action "animation") root_path = Raise e →
  parse_actions (action :: rest) root_path = Raise e.
Proof. intros He. unfold parse_actions. simpl. by rewrite He. Qed.

Lemma parse_object_dynamic (obj : element) (root_path : string)
    (atlas_def : option atlas_def) :
  Py.int <$> attrib obj !! "static" = Some (Return 0) →
  parse_object obj root_path atlas_def
  = parse_actions (findall obj "action") root_path
    ≫= λ acts, Return (ObjDef (attrib obj) (Some acts) None).
Proof.
  intros Hstatic. unfold parse_object.
  destruct (attrib obj !! "static") as [s|] eqn:Hs; [|done].
  injection Hstatic as Hint. rewrite (getitem_Some _ _ _ Hs).
  cbn [mbind result_bind]. by rewrite Hint.
Qed.

Lemma parse_file_single (filename : string) (tree : etree) :
  etree_parse filename = Return tree →
  parse_single filename (os_path_dirname filename)
  = parse_object (getroot tree) (os_path_dirname filename) None
    ≫= λ o, Return [o].
Proof. intros Htree. unfold parse_single. by rewrite Htree. Qed.

(** What the [try] block raises leaves [parse_file] unchanged unless
    it is an [XMLSyntaxError]. *)
Lemma parse_file_reraise (filename : string) (e : exn) :
  parse_single filename (os_path_dirname filename) = Raise e →
  (∀ position, e ≠ XMLSyntaxError position) →
  parse_file filename = Raise e.
Proof.
  intros He Hother. unfold parse_file. rewrite He.
  destruct e; try done. by destruct (Hother position).
Qed.

(** C8, as the code has it: an inline animation (no [source]
    attribute) whose [id] has fewer than three colon-separated
    segments makes [parse_animation] raise Python's own [IndexError],
    from [split(":")[2]], or the [KeyError] of a frame without
    [source] when the frame loop, which runs first, meets one.
    Nothing catches it: [parse_animations] raises it when the
    animation heads a list of frame animations, and [parse_file]
    raises it for a file whose object has that animation first in its
    first action. *)
Theorem C8_short_animation_id (animation : element) (id : string) :
  attrib animation !! "source" = None →
  attrib animation !! "id" = Some id →
  (length (Py.split ":" id) < 3)%nat →
  (forallb (λ frame, has_attr frame "source") (findall animation "frame") = true →
   short_id_error animation = IndexError)
  ∧ (forallb (λ frame, has_attr frame "source") (findall animation "frame") = false →
     short_id_error animation = KeyError "source")
  ∧ (∀ depth root_path,
       parse_animation depth animation root_path
       = Raise (short_id_error animation))
  ∧ (∀ rest root_path,
       attrib animation !! "atlas" = None →
       parse_animations (animation :: rest) root_path
       = Raise (short_id_error animation))
  ∧ (∀ filename tree action actions rest,
       attrib animation !! "atlas" = None →
       etree_parse filename = Return tree →
       Py.int <$> attrib (getroot tree) !! "static" = Some (Return 0) →
       findall (getroot tree) "action" = action :: actions →
       findall action "animation" = animation :: rest →
       parse_file filename = Raise (short_id_error animation)).
Proof.
  intros Hinline Hid Hshort.
  assert (Hraise : ∀ depth root_path,
    parse_animation depth animation root_path = Raise (short_id_error animation)).
  { intros depth root_path. destruct depth; simpl; rewrite Hinline;
      by apply parse_frames_short_id with id. }
  split; [|split; [|split; [|split]]].
  - unfold short_id_error. by intros ->.
  - unfold short_id_error. by intros ->.
  - done.
  - intros rest root_path Hatlas. by apply parse_animations_raise.
  - intros filename tree action actions rest Hatlas Htree Hstatic Hacts Hanis.
    apply parse_file_reraise.
    + rewrite (parse_file_single _ _ Htree), parse_object_dynamic by done.
      rewrite Hacts.
      rewrite (parse_actions_raise _ _ _ (short_id_error animation)); [done|].
      rewrite Hanis. by apply parse_animations_raise.
    + unfold short_id_error. by destruct (forallb _ _).
Qed.

End Animations.

(** ** Objects *)

Section Objects.
Context `{Platform}.

Lemma int_raises (s : string) (e : exn) : Py.int s = Raise e → e = ValueError.
Proof. unfold Py.int. destruct (mbind _ _); congruence. Qed.

Lemma parse_object_static (obj : element) (root_path : string)
    (atlas_def : option atlas_def) :
  Py.int <$> attrib obj !! "static" = Some (Return 1) →
  parse_object obj root_path atlas_def
  = for_each
      (λ dir_defs image,
         image_def ← parse_image atlas_def root_path image;
         d ← Py.getitem image_def "direction";
         dir ← Py.int d;
         mret (<[dir := image_def]> dir_defs))
      ∅ (findall obj "image")
    ≫= λ dir_defs, Return (ObjDef (attrib obj) None (Some dir_defs)).
Proof.
  intros Hstatic. unfold parse_object.
  destruct (attrib obj !! "static") as [s|] eqn:Hs; [|done].
  injection Hstatic as Hint. rewrite (getitem_Some _ _ _ Hs).
  cbn [mbind result_bind]. by rewrite Hint.
Qed.

Lemma parse_object_other (obj : element) (root_path : string)
    (atlas_def : option atlas_def) (s : string) (n : Z) :
  attrib obj !! "static" = Some s →
  Py.int s = Return n → n ≠ 0 → n ≠ 1 →
  parse_object obj root_path atlas_def
  = Py.index (children obj) 0 ≫= λ first, Raise (UnsupportedObjectKind (tag_str first)).
Proof.
  intros Hs Hint H0 H1. unfold parse_object.
  rewrite (getitem_Some _ _ _ Hs). cbn [mbind result_bind]. rewrite Hint.
  cbn [mbind result_bind]. by rewrite !decide_False.
Qed.

(** C5, as the code has it: an object element with at least one
    child whose [static] attribute reads as an integer other than 0
    and 1 yields no definition: [parse_object] raises the
    [RuntimeError] that starts "Don't know how to handle". *)
Theorem C5_unsupported_static (obj : element) (root_path : string)
    (atlas_def : option atlas_def) (s : string) (n : Z)
    (first : child) (rest : list child) :
  attrib obj !! "static" = Some s →
  Py.int s = Return n →
  n ≠ 0 → n ≠ 1 →
  children obj = first :: rest →
  ∃ tag, parse_object obj root_path atlas_def = Raise (UnsupportedObjectKind tag).
Proof.
  intros Hs Hint H0 H1 Hchildren.
  rewrite (parse_object_other _ _ _ s n) by done.
  rewrite Hchildren. simpl. by eexists.
Qed.

(** The definition of an image that the atlas index knows. *)
Lemma parse_image_atlas (ad : atlas_def) (root_path : string) (image entry : element)
    (source name : string) :
  attrib image !! "source" = Some source →
  images ad !! source = Some entry →
  attrib (atlas ad) !! "name" = Some name →
  parse_image (Some ad) root_path image
  = Return (<["source" := os_path_abspath (os_path_join root_path name)]>
             (<["source" := name]>
               (<["type" := "atlas"]> (attrib entry ∪ attrib image)))).
Proof.
  intros Hsource Hentry Hname. unfold parse_image.
  rewrite (getitem_Some _ _ _ Hsource). cbn [mbind result_bind from_option].
  rewrite Hentry. cbn [mbind result_bind mret result_ret].
  rewrite (getitem_Some _ _ _ Hname). cbn [mbind result_bind mret result_ret].
  rewrite (getitem_Some _ "source" name); [done|].
  apply lookup_insert_eq.
Qed.

(** The definition of an image that the atlas index does not know. *)
Lemma parse_image_standalone (atlas_def : option atlas_def) (root_path : string)
    (image : element) (source : string) :
  attrib image !! "source" = Some source →
  from_option images ∅ atlas_def !! source = None →
  parse_image atlas_def root_path image
  = Return (<["source" := os_path_abspath (os_path_join root_path source)]>
             (<["type" := "image"]> (attrib image))).
Proof.
  intros Hsource Hentry. unfold parse_image.
  rewrite (getitem_Some _ _ _ Hsource). cbn [mbind result_bind].
  rewrite Hentry. cbn [mbind result_bind mret result_ret].
  rewrite (getitem_Some _ "source" source); [done|].
  by rewrite lookup_insert_ne.
Qed.

Lemma images_body_entry (atlas_def : option atlas_def) (root_path : string)
    (m : gmap Z (gmap string string)) (image : element) :
  (image_def ← parse_image atlas_def root_path image;
   d ← Py.getitem image_def "direction";
   dir ← Py.int d;
   mret (<[dir := image_def]> m))
  = image_entry atlas_def root_path image ≫= λ kv, Return (<[kv.1 := kv.2]> m).
Proof.
  unfold image_entry.
  destruct (parse_image _ _ _) as [image_def|e]; simpl; [|done].
  destruct (Py.getitem _ _); simpl; [|done]. by destruct (Py.int _).
Qed.

Lemma directions_body_entry (m : gmap Z dir_data) (direction : element) :
  (d ← Py.getitem (attrib direction) "dir";
   action_dir ← Py.int d;
   dl ← Py.getitem (attrib direction) "delay";
   fr ← Py.getitem (attrib direction) "frames";
   mret (<[action_dir := DirData dl fr]> m))
  = direction_entry direction ≫= λ kv, Return (<[kv.1 := kv.2]> m).
Proof.
  unfold direction_entry.
  destruct (Py.getitem _ "dir"); simpl; [|done].
  destruct (Py.int _); simpl; [|done].
  destruct (Py.getitem _ "delay"); simpl; [|done].
  by destruct (Py.getitem _ "frames").
Qed.

(** C10: the direction-keyed mappings are built by overwriting.  In
    each of the three loops (the images of a static object, the
    animations of a multi-frame action, the directions of an atlas
    animation) a child that contributes direction [n], with no later
    child contributing [n], is the one the mapping holds under [n],
    whatever the children before it contributed. *)
Theorem C10_last_direction_wins (root_path : string) :
  (∀ obj atlas_def d m pre image post n image_def,
     parse_object obj root_path atlas_def = Return d →
     directions d = Some m →
     findall obj "image" = pre ++ image :: post →
     image_entry atlas_def root_path image = Return (n, image_def) →
     (∀ later v, later ∈ post →
        image_entry atlas_def root_path later ≠ Return (n, v)) →
     m !! n = Some image_def)
  ∧ (∀ animations m pre animation post n ani,
       parse_animations animations root_path = Return (Multi m) →
       animations = pre ++ animation :: post →
       animation_entry root_path animation = Return (n, ani) →
       (∀ later v, later ∈ post →
          animation_entry root_path later ≠ Return (n, v)) →
       m !! n = Some ani)
  ∧ (∀ animation a pre direction post n data,
       parse_animation_atlas animation root_path = Return a →
       findall animation "direction" = pre ++ direction :: post →
       direction_entry direction = Return (n, data) →
       (∀ later v, later ∈ post → direction_entry later ≠ Return (n, v)) →
       aa_directions a !! n = Some data).
Proof.
  split; [|split].
  - intros obj atlas_def d m pre image post n image_def Hd Hm Himages Himage Hpost.
    unfold parse_object in Hd.
    apply bind_Return in Hd as (s & _ & Hd).
    apply bind_Return in Hd as (static & _ & Hd).
    destruct (decide (static = 0)) as [|_].
    { apply bind_Return in Hd as (acts & _ & Hd). inversion Hd; subst d. done. }
    destruct (decide (static = 1)) as [|_];
      [|by apply bind_Return in Hd as (? & _ & ?)].
    apply bind_Return in Hd as (dirs & Hloop & Hd).
    inversion Hd; subst d; clear Hd. simpl in Hm. injection Hm as ->.
    exact (for_each_last_wins _ _ (images_body_entry atlas_def root_path)
             _ _ _ _ _ _ _ _ Hloop Himages Himage Hpost).
  - intros animations m pre animation post n ani Hm -> Hani Hpost.
    unfold parse_animations in Hm.
    apply bind_Return in Hm as (first & _ & Hm).
    destruct (Py.contains _ _).
    { inv_bind Hm. by inversion Hm. }
    apply bind_Return in Hm as (dirs & Hloop & Hm).
    inversion Hm; subst dirs; clear Hm.
    exact (for_each_last_wins _ _ (animations_body_entry root_path)
             _ _ _ _ _ _ _ _ Hloop eq_refl Hani Hpost).
  - intros animation a pre direction post n data Ha Hdirs Hdir Hpost.
    unfold parse_animation_atlas in Ha.
    apply bind_Return in Ha as (? & _ & Ha).
    apply bind_Return in Ha as (? & _ & Ha).
    apply bind_Return in Ha as (? & _ & Ha).
    apply bind_Return in Ha as (dirs & Hloop & Ha).
    inversion Ha; subst a; clear Ha. simpl.
    exact (for_each_last_wins _ _ directions_body_entry
             _ _ _ _ _ _ _ _ Hloop Hdirs Hdir Hpost).
Qed.

End Objects.

(** ** Well-formed definitions are parsed *)

Section Completeness.
Context `{Platform}.

Lemma forallb_elem_of {A} (f : A → bool) (l : list A) (x : A) :
  forallb f l = true → x ∈ l → f x = true.
Proof.
  intros Hall Hx. apply (proj1 (forallb_forall f l) Hall).
  by apply list_elem_of_In.
Qed.

Lemma int_valued_Return (d : gmap string string) (k : string) :
  int_valued d k = true → ∃ v n, d !! k = Some v ∧ Py.int v = Return n.
Proof.
  unfold int_valued, is_int. destruct (d !! k) as [v|]; simpl; [|done].
  destruct (Py.int v) as [n|] eqn:Hn; [|done]. eauto.
Qed.

Lemma image_entry_of_def (atlas_def : option atlas_def) (root_path : string)
    (image : element) (image_def : gmap string string) :
  parse_image atlas_def root_path image = Return image_def →
  int_valued image_def "direction" = true →
  is_Return (image_entry atlas_def root_path image).
Proof.
  intros Hdef (v & n & Hv & Hn)%int_valued_Return. unfold image_entry.
  rewrite Hdef. cbn [mbind result_bind].
  rewrite (getitem_Some _ _ _ Hv). cbn [mbind result_bind].
  rewrite Hn. by eexists.
Qed.

Lemma wf_image_entry (atlas_def : option atlas_def) (root_path : string)
    (image : element) :
  wf_image atlas_def image = true →
  is_Return (image_entry atlas_def root_path image).
Proof.
  unfold wf_image.
  destruct (attrib image !! "source") as [source|] eqn:Hsource; [|done].
  assert (Hstandalone : from_option images ∅ atlas_def !! source = None →
            int_valued (attrib image) "direction" = true →
            is_Return (image_entry atlas_def root_path image)).
  { intros Hnone Hdir.
    eapply image_entry_of_def; [by apply parse_image_standalone|].
    unfold int_valued. by rewrite !lookup_insert_ne. }
  destruct atlas_def as [ad|]; [|by apply Hstandalone].
  destruct (images ad !! source) as [entry|] eqn:Hentry; [|by apply Hstandalone].
  intros [(name & Hname)%has_attr_true Hdir]%andb_prop.
  eapply image_entry_of_def; [by eapply parse_image_atlas|].
  unfold int_valued. by rewrite !lookup_insert_ne.
Qed.

Lemma wf_inline_parse_frames (animation : element) (root_path : string) :
  wf_inline animation = true →
  ∃ ani, parse_frames animation root_path = Return ani
         ∧ is_int (direction ani) = true.
Proof.
  unfold wf_inline.
  intros [[[Hframes Hid]%andb_prop (x & Hx)%has_attr_true]%andb_prop
            (y & Hy)%has_attr_true]%andb_prop.
  destruct (attrib animation !! "id") as [id|] eqn:Hid'; [|done].
  simpl in Hid.
  destruct (Py.split ":" id !! 2%nat) as [dir|] eqn:Hdir; [|done].
  simpl in Hid.
  unfold parse_frames. rewrite frames_loop, Hframes.
  cbn [mbind result_bind]. rewrite (getitem_Some _ _ _ Hid').
  cbn [mbind result_bind]. unfold Py.index. rewrite Hdir.
  cbn [mbind result_bind].
  rewrite (getitem_Some _ _ _ Hx), (getitem_Some _ _ _ Hy).
  cbn [mbind result_bind]. by eexists.
Qed.

Lemma wf_animation_parse (depth : nat) (animation : element) (root_path : string) :
  wf_animation depth animation root_path = true →
  ∃ ani, parse_animation depth animation root_path = Return ani
         ∧ is_int (direction ani) = true.
Proof.
  revert animation root_path.
  induction depth as [|depth IH]; intros animation root_path; simpl;
    destruct (attrib animation !! "source") as [file|];
    try done; try apply wf_inline_parse_frames.
  destruct (etree_parse _) as [doc|]; [|done]. cbn [mbind result_bind].
  intros [(d & Hd)%has_attr_true (inner & Hinner & Hdir)%IH]%andb_prop.
  rewrite (getitem_Some _ _ _ Hd). cbn [mbind result_bind].
  rewrite Hinner. by eexists.
Qed.

Lemma wf_animation_entry (root_path : string) (animation : element) :
  wf_animation recursion_limit animation root_path = true →
  is_Return (animation_entry root_path animation).
Proof.
  intros (ani & Hani & Hdir)%wf_animation_parse. unfold animation_entry.
  rewrite Hani. cbn [mbind result_bind]. unfold is_int in Hdir.
  destruct (Py.int (direction ani)); [by eexists|done].
Qed.

Lemma wf_direction_entry (direction : element) :
  wf_direction direction = true → is_Return (direction_entry direction).
Proof.
  unfold wf_direction.
  intros [[(v & n & Hv & Hn)%int_valued_Return (dl & Hdl)%has_attr_true]%andb_prop
            (fr & Hfr)%has_attr_true]%andb_prop.
  unfold direction_entry. rewrite (getitem_Some _ _ _ Hv).
  cbn [mbind result_bind]. rewrite Hn. cbn [mbind result_bind].
  rewrite (getitem_Some _ _ _ Hdl), (getitem_Some _ _ _ Hfr). by eexists.
Qed.

Lemma wf_atlas_animation_parse (animation : element) (root_path : string) :
  wf_atlas_animation animation = true →
  is_Return (parse_animation_atlas animation root_path).
Proof.
  unfold wf_atlas_animation.
  intros [[[(a & Ha)%has_attr_true (w & Hw)%has_attr_true]%andb_prop
             (h & Hh)%has_attr_true]%andb_prop Hdirs]%andb_prop.
  unfold parse_animation_atlas.
  rewrite (getitem_Some _ _ _ Ha). cbn [mbind result_bind].
  rewrite (getitem_Some _ _ _ Hw), (getitem_Some _ _ _ Hh).
  cbn [mbind result_bind].
  apply is_Return_bind; [|intros; by eexists].
  apply (for_each_keyed_is_Return direction_entry _ directions_body_entry).
  intros d Hd. apply wf_direction_entry. by eapply forallb_elem_of.
Qed.

Lemma wf_animations_parse (animations : list element) (root_path : string) :
  wf_animations animations root_path = true →
  is_Return (parse_animations animations root_path).
Proof.
  destruct animations as [|first rest]; [done|].
  unfold wf_animations.
  destruct (Py.contains (attrib first) "atlas") eqn:Hatlas; intros Hwf.
  - rewrite parse_animations_single by exact (proj1 (contains_true _ _) Hatlas).
    apply is_Return_bind; [by apply wf_atlas_animation_parse|intros; by eexists].
  - rewrite parse_animations_multi by exact (proj1 (contains_false _ _) Hatlas).
    apply is_Return_bind; [|intros; by eexists].
    apply (for_each_keyed_is_Return (animation_entry root_path) _
             (animations_body_entry root_path)).
    intros a Ha. apply wf_animation_entry.
    exact (forallb_elem_of _ _ _ Hwf Ha).
Qed.

Lemma wf_actions_parse (actions : list element) (root_path : string) :
  forallb (wf_action root_path) actions = true →
  is_Return (parse_actions actions root_path).
Proof.
  intros Hwf. apply for_each_is_Return. intros m action Haction.
  pose proof (forallb_elem_of _ _ _ Hwf Haction) as Hact.
  unfold wf_action in Hact.
  apply andb_prop in Hact as [Hanis (id & Hid)%has_attr_true].
  apply is_Return_bind; [by apply wf_animations_parse|]. intros anis _.
  rewrite (getitem_Some _ _ _ Hid). by eexists.
Qed.

(** A well-formed object is parsed, and the definition carries its
    attributes. *)
Lemma wf_object_parse (obj : element) (root_path : string)
    (atlas_def : option atlas_def) :
  wf_object obj root_path atlas_def = true →
  ∃ d, parse_object obj root_path atlas_def = Return d ∧ object d = attrib obj.
Proof.
  unfold wf_object.
  destruct (Py.int <$> attrib obj !! "static") as [[n|]|] eqn:Hstatic; try done.
  destruct n as [|[| |]|]; try done; intros Hwf.
  - rewrite parse_object_dynamic by done.
    destruct (wf_actions_parse _ _ Hwf) as [acts ->]. by eexists.
  - rewrite parse_object_static by done.
    destruct (for_each_keyed_is_Return (image_entry atlas_def root_path) _
                (images_body_entry atlas_def root_path)
                (findall obj "image") ∅) as [dirs ->]; [|by eexists].
    intros image Himage. apply wf_image_entry. by eapply forallb_elem_of.
Qed.

Lemma parse_object_attrib (obj : element) (root_path : string)
    (atlas_def : option atlas_def) (d : obj_def) :
  parse_object obj root_path atlas_def = Return d → object d = attrib obj.
Proof.
  unfold parse_object. intros Hd.
  apply bind_Return in Hd as (s & _ & Hd).
  apply bind_Return in Hd as (n & _ & Hd).
  repeat case_decide.
  - apply bind_Return in Hd as (? & _ & Hd). by inversion Hd.
  - apply bind_Return in Hd as (? & _ & Hd). by inversion Hd.
  - by apply bind_Return in Hd as (? & _ & ?).
Qed.

End Completeness.

(** ** Files *)

Section Files.
Context `{Platform}.

Lemma parse_file_direct (filename : string) (tree : etree) (d : obj_def) :
  etree_parse filename = Return tree →
  parse_object (getroot tree) (os_path_dirname filename) None = Return d →
  parse_file filename = Return [d].
Proof.
  intros Htree Hd. unfold parse_file.
  by rewrite (parse_file_single _ _ Htree), Hd.
Qed.

(** The [except] block runs on every [XMLSyntaxError] of the [try]
    block. *)
Lemma parse_file_recover (filename : string) (position : Z * Z) :
  parse_single filename (os_path_dirname filename)
  = Raise (XMLSyntaxError position) →
  parse_file filename = parse_dual filename (os_path_dirname filename) position.
Proof. intros He. unfold parse_file. by rewrite He. Qed.

(** An [XMLSyntaxError] raised while the root object is parsed, after
    the file itself has been parsed, starts the [except] block as
    well. *)
Lemma parse_file_recover_nested (filename : string) (tree : etree)
    (position : Z * Z) :
  etree_parse filename = Return tree →
  parse_object (getroot tree) (os_path_dirname filename) None
  = Raise (XMLSyntaxError position) →
  parse_file filename = parse_dual filename (os_path_dirname filename) position.
Proof.
  intros Htree Hobj. apply parse_file_recover.
  by rewrite (parse_file_single _ _ Htree), Hobj.
Qed.

Lemma parse_file_cases (filename : string) (ds : list obj_def) :
  parse_file filename = Return ds →
  (∃ tree d,
     etree_parse filename = Return tree
     ∧ parse_object (getroot tree) (os_path_dirname filename) None = Return d
     ∧ ds = [d])
  ∨ (∃ position,
       parse_single filename (os_path_dirname filename)
       = Raise (XMLSyntaxError position)
       ∧ parse_dual filename (os_path_dirname filename) position = Return ds).
Proof.
  unfold parse_file.
  destruct (parse_single _ _) as [ds'|e] eqn:Hsingle.
  - intros [= ->]. left. unfold parse_single in Hsingle.
    apply bind_Return in Hsingle as (tree & Htree & Hsingle).
    apply bind_Return in Hsingle as (d & Hd & Hsingle).
    inversion Hsingle. eauto.
  - destruct e; try done. right. eauto.
Qed.

(** The loop that appends one definition per [object] element. *)
Lemma objects_loop (f : element → result obj_def) (objs : list element)
    (acc ds : list obj_def) :
  for_each (λ objects obj, o ← f obj; mret (objects ++ [o])) acc objs
  = Return ds →
  ∃ new, ds = acc ++ new ∧ Forall2 (λ obj d, f obj = Return d) objs new.
Proof.
  revert acc. induction objs as [|obj objs IH]; intros acc; simpl.
  - intros [= <-]. exists []. by rewrite app_nil_r.
  - intros Hrun. apply bind_Return in Hrun as (acc' & Hobj & Hrun).
    apply bind_Return in Hobj as (d & Hd & Hacc'). inversion Hacc'; subst acc'.
    destruct (IH _ Hrun) as (new & -> & Hnew).
    exists (d :: new). rewrite <- app_assoc. split; [done|].
    by constructor.
Qed.

Lemma objects_loop_Return (f : element → result obj_def) (objs : list element)
    (acc new : list obj_def) :
  Forall2 (λ obj d, f obj = Return d) objs new →
  for_each (λ objects obj, o ← f obj; mret (objects ++ [o])) acc objs
  = Return (acc ++ new).
Proof.
  intros Hnew. revert acc.
  induction Hnew as [|obj d objs new Hd _ IH]; intros acc; simpl.
  - by rewrite app_nil_r.
  - rewrite Hd. simpl. rewrite IH. by rewrite <- app_assoc.
Qed.

(** What a successful run of the [except] block went through. *)
Lemma parse_dual_Return_inv (filename root_path : string) (position : Z * Z)
    (ds : list obj_def) :
  parse_dual filename root_path position = Return ds →
  ∃ lines first_doc atlas_tree ad second_doc objects_tree,
    readlines filename = Return lines
    ∧ Py.ujoin (Py.slice_to lines (position.1 - 2)) = Return first_doc
    ∧ etree_parse_string first_doc = Return atlas_tree
    ∧ parse_atlas (getroot atlas_tree) root_path = Return ad
    ∧ Py.ujoin (wrapped lines (position.1 - 2)) = Return second_doc
    ∧ etree_parse_string second_doc = Return objects_tree
    ∧ Forall2 (λ obj d, parse_object obj root_path (Some ad) = Return d)
        (findall (getroot objects_tree) "object") ds.
Proof.
  unfold parse_dual. intros Hds.
  apply bind_Return in Hds as (lines & Hlines & Hds).
  apply bind_Return in Hds as (first_doc & Hfirst & Hds).
  apply bind_Return in Hds as (atlas_tree & Hatlas & Hds).
  apply bind_Return in Hds as (pi & _ & Hds).
  apply bind_Return in Hds as (pi_text & _ & Hds).
  apply bind_Return in Hds as (declared & _ & Hds).
  case_decide; [|done].
  apply bind_Return in Hds as (ad & Had & Hds).
  apply bind_Return in Hds as (second_doc & Hsecond & Hds).
  apply bind_Return in Hds as (objects_tree & Hobjects & Hds).
  apply objects_loop in Hds as (new & -> & Hnew).
  exists lines, first_doc, atlas_tree, ad, second_doc, objects_tree.
  by repeat split.
Qed.

(** The [except] block up to the check of the declared type. *)
Lemma parse_dual_declared (filename root_path : string) (position : Z * Z)
    (lines : list string) (first_doc : string) (atlas_tree : etree)
    (pi : misc) (pi_text declared : string) :
  readlines filename = Return lines →
  Py.ujoin (Py.slice_to lines (position.1 - 2)) = Return first_doc →
  etree_parse_string first_doc = Return atlas_tree →
  getprevious atlas_tree = Some pi →
  text pi = Some pi_text →
  Py.split "=" pi_text !! 1%nat = Some declared →
  parse_dual filename root_path position
  = if decide (Py.lower (Py.remove_char dquote declared) = "atlas")
    then
      atlas_def ← parse_atlas (getroot atlas_tree) root_path;
      second_doc ← Py.ujoin (wrapped lines (position.1 - 2));
      tree ← etree_parse_string second_doc;
      for_each
        (λ objects obj,
           o ← parse_object obj root_path (Some atlas_def);
           mret (objects ++ [o]))
        [] (findall (getroot tree) "object")
    else Raise (UnexpectedFileFormat filename).
Proof.
  intros Hlines Hfirst Hatlas Hpi Htext Hdeclared. unfold parse_dual.
  rewrite Hlines. cbn [mbind result_bind]. rewrite Hfirst. cbn [mbind result_bind].
  rewrite Hatlas. cbn [mbind result_bind]. rewrite Hpi. cbn [mbind result_bind from_option].
  rewrite Htext. cbn [mbind result_bind from_option].
  unfold Py.index. rewrite Hdeclared. done.
Qed.

(** Without anything before the root of the first document the
    [except] block ends in [AttributeError]: [getprevious()] is
    [None]. *)
Lemma parse_dual_no_instruction (filename root_path : string) (position : Z * Z)
    (lines : list string) (first_doc : string) (atlas_tree : etree) :
  readlines filename = Return lines →
  Py.ujoin (Py.slice_to lines (position.1 - 2)) = Return first_doc →
  etree_parse_string first_doc = Return atlas_tree →
  prolog atlas_tree = [] →
  parse_dual filename root_path position = Raise AttributeError.
Proof.
  intros Hlines Hfirst Hatlas Hprolog. unfold parse_dual.
  rewrite Hlines. cbn [mbind result_bind]. rewrite Hfirst. cbn [mbind result_bind].
  rewrite Hatlas. cbn [mbind result_bind]. unfold getprevious. by rewrite Hprolog.
Qed.

(** When recovery runs and the processing instruction before the
    first document declares another type than atlas, [parse_file]
    raises the unexpected-file-format error. *)
Lemma parse_file_unexpected_format (filename : string) (position : Z * Z)
    (lines : list string) (first_doc : string) (atlas_tree : etree)
    (pi : misc) (pi_text declared : string) :
  parse_single filename (os_path_dirname filename)
  = Raise (XMLSyntaxError position) →
  readlines filename = Return lines →
  Py.ujoin (Py.slice_to lines (position.1 - 2)) = Return first_doc →
  etree_parse_string first_doc = Return atlas_tree →
  getprevious atlas_tree = Some pi →
  text pi = Some pi_text →
  Py.split "=" pi_text !! 1%nat = Some declared →
  Py.lower (Py.remove_char dquote declared) ≠ "atlas" →
  parse_file filename = Raise (UnexpectedFileFormat filename).
Proof.
  intros Hsingle Hlines Hfirst Hatlas Hpi Htext Hdeclared Hother.
  rewrite (parse_file_recover _ _ Hsingle).
  rewrite (parse_dual_declared _ _ _ _ _ _ _ _ _
             Hlines Hfirst Hatlas Hpi Htext Hdeclared).
  by rewrite decide_False.
Qed.

(** C1: when the file parses as one XML document and its root is a
    well-formed object element with an [id], [parse_file] returns
    exactly one definition, and the ["id"] of its ["object"] entry is
    the root's [id] attribute.  The tag of the root is not looked
    at. *)
Theorem C1_single_document (filename : string) (tree : etree) (id : string) :
  etree_parse filename = Return tree →
  attrib (getroot tree) !! "id" = Some id →
  wf_object (getroot tree) (os_path_dirname filename) None = true →
  ∃ d, parse_file filename = Return [d] ∧ object d !! "id" = Some id.
Proof.
  intros Htree Hid (d & Hd & Hobject)%wf_object_parse.
  exists d. split; [by eapply parse_file_direct|]. by rewrite Hobject.
Qed.

Lemma parse_atlas_two_images (root : element) (root_path : string)
    (image1 image2 : element) (source1 source2 : string) :
  findall root "image" = [image1; image2] →
  attrib image1 !! "source" = Some source1 →
  attrib image2 !! "source" = Some source2 →
  parse_atlas root root_path
  = Return (AtlasDef root (<[source2 := image2]> (<[source1 := image1]> ∅))).
Proof.
  intros Himages H1 H2. unfold parse_atlas. rewrite Himages. simpl.
  rewrite (getitem_Some _ _ _ H1). simpl. by rewrite (getitem_Some _ _ _ H2).
Qed.

Lemma forallb_sublist {A} (f : A → bool) (l k : list A) :
  forallb f l = true → k ⊆ l → forallb f k = true.
Proof.
  rewrite !forallb_forall. intros Hall Hsub x Hx.
  apply Hall, list_elem_of_In, Hsub, list_elem_of_In, Hx.
Qed.

Lemma slice_to_subseteq {A} (l : list A) (n : Z) : Py.slice_to l n ⊆ l.
Proof. unfold Py.slice_to. case_decide; apply subseteq_take. Qed.

Lemma slice_from_subseteq {A} (l : list A) (n : Z) : Py.slice_from l n ⊆ l.
Proof. unfold Py.slice_from. case_decide; apply subseteq_drop. Qed.

Lemma ujoin_ascii (lines : list string) :
  forallb Py.is_ascii lines = true →
  Py.ujoin lines = Return (String.concat EmptyString lines).
Proof. intros Hascii. unfold Py.ujoin. by rewrite Hascii. Qed.

(** The two texts the [except] block makes of an ASCII file. *)
Lemma ujoin_first_doc (lines : list string) (line_no : Z) :
  forallb Py.is_ascii lines = true →
  Py.ujoin (Py.slice_to lines line_no)
  = Return (String.concat EmptyString (Py.slice_to lines line_no)).
Proof.
  intros Hascii. apply ujoin_ascii.
  eapply forallb_sublist; [done|apply slice_to_subseteq].
Qed.

Lemma ujoin_second_doc (lines : list string) (line_no : Z) :
  forallb Py.is_ascii lines = true →
  Py.ujoin (wrapped lines line_no)
  = Return (String.concat EmptyString (wrapped lines line_no)).
Proof.
  intros Hascii. apply ujoin_ascii. unfold wrapped.
  change (forallb Py.is_ascii
            (Py.slice_from lines (line_no + 1) ++ ["</objects>" +:+ nl]) = true).
  rewrite forallb_app. apply andb_true_intro. split; [|done].
  eapply forallb_sublist; [done|apply slice_from_subseteq].
Qed.

(** C2, as the code has it.  The file is ASCII text and not one XML
    document: the parser reports its error on line [line], the line
    of the first object.  The lines before line [line - 1] are a
    document that starts with a processing instruction whose text is
    [type="atlas"], followed by the atlas element with two images,
    each with a [source]; line [line - 1] is skipped; the lines from
    line [line] on, wrapped in an [objects] element, are a document
    with two [object] children, both well-formed.  Then [parse_file]
    returns exactly two definitions, one per object element and in
    their order. *)
Theorem C2_atlas_with_two_objects (filename : string) (line column : Z)
    (lines : list string) (target : string)
    (atlas_tree objects_tree : etree)
    (image1 image2 obj1 obj2 : element) (source1 source2 : string) :
  let root_path := os_path_dirname filename in
  let ad := AtlasDef (getroot atlas_tree)
              (<[source2 := image2]> (<[source1 := image1]> ∅)) in
  etree_parse filename = Raise (XMLSyntaxError (line, column)) →
  readlines filename = Return lines →
  forallb Py.is_ascii lines = true →
  etree_parse_string (String.concat EmptyString (Py.slice_to lines (line - 2)))
  = Return atlas_tree →
  getprevious atlas_tree
  = Some (ProcessingInstruction target (Some ("type=" +:+ quoted "atlas"))) →
  findall (getroot atlas_tree) "image" = [image1; image2] →
  attrib image1 !! "source" = Some source1 →
  attrib image2 !! "source" = Some source2 →
  etree_parse_string (String.concat EmptyString (wrapped lines (line - 2)))
  = Return objects_tree →
  findall (getroot objects_tree) "object" = [obj1; obj2] →
  wf_object obj1 root_path (Some ad) = true →
  wf_object obj2 root_path (Some ad) = true →
  ∃ d1 d2,
    parse_file filename = Return [d1; d2]
    ∧ parse_object obj1 root_path (Some ad) = Return d1
    ∧ parse_object obj2 root_path (Some ad) = Return d2
    ∧ object d1 = attrib obj1 ∧ object d2 = attrib obj2.
Proof.
  intros root_path ad Hfile Hlines Hascii Hatlas Hpi Himages Hs1 Hs2
    Hobjects Hobjs (d1 & Hd1 & Ho1)%wf_object_parse
    (d2 & Hd2 & Ho2)%wf_object_parse.
  exists d1, d2. repeat split; try done.
  rewrite (parse_file_recover _ (line, column))
    by (unfold parse_single; by rewrite Hfile).
  rewrite (parse_dual_declared _ _ (line, column) _ _ _ _ _ (quoted "atlas")
             Hlines (ujoin_first_doc _ _ Hascii) Hatlas Hpi eq_refl eq_refl).
  rewrite decide_True by done.
  rewrite (parse_atlas_two_images _ _ _ _ _ _ Himages Hs1 Hs2).
  cbn [mbind result_bind]. simpl fst.
  rewrite (ujoin_second_doc _ _ Hascii). cbn [mbind result_bind].
  rewrite Hobjects. cbn [mbind result_bind]. rewrite Hobjs.
  apply (objects_loop_Return (λ obj, parse_object obj root_path (Some ad))
           _ [] [d1; d2]).
  by repeat constructor.
Qed.

(** C3, as the code has it: the sequence [parse_file] returns is
    either the one definition of the plain document, or, after an
    [XMLSyntaxError] in the [try] block, the definitions of the
    [object] children of the second document, in their order, each
    parsed with the atlas of the first document; in that case no
    element of the sequence is the definition of a plain document. *)
Theorem C3_result_origin (filename : string) (ds : list obj_def) :
  let root_path := os_path_dirname filename in
  parse_file filename = Return ds →
  (∃ tree d,
     etree_parse filename = Return tree
     ∧ parse_object (getroot tree) root_path None = Return d
     ∧ ds = [d])
  ∨ (∃ position lines first_doc atlas_tree ad second_doc objects_tree,
       parse_single filename root_path = Raise (XMLSyntaxError position)
       ∧ readlines filename = Return lines
       ∧ Py.ujoin (Py.slice_to lines (position.1 - 2)) = Return first_doc
       ∧ etree_parse_string first_doc = Return atlas_tree
       ∧ parse_atlas (getroot atlas_tree) root_path = Return ad
       ∧ Py.ujoin (wrapped lines (position.1 - 2)) = Return second_doc
       ∧ etree_parse_string second_doc = Return objects_tree
       ∧ Forall2 (λ obj d, parse_object obj root_path (Some ad) = Return d)
           (findall (getroot objects_tree) "object") ds).
Proof.
  intros root_path [Hplain|(position & Hsingle & Hdual)]%parse_file_cases;
    [by left|right].
  apply parse_dual_Return_inv in Hdual
    as (lines & first_doc & atlas_tree & ad & second_doc & objects_tree & Hdual).
  exists position, lines, first_doc, atlas_tree, ad, second_doc, objects_tree.
  by split.
Qed.

End Files.

(** ** The parser on the fixtures *)

Module Examples.
Import Fixtures.
#[local] Existing Instance world.

Example parse_atlas_trees : parse_atlas trees_atlas objects_dir = Return trees_index.
Proof. vm_compute. reflexivity. Qed.

(** Witness of C1: [tree.xml]. *)
Lemma C1_single_document_witness :
  ∃ d, parse_file "/project/objects/tree.xml" = Return [d]
       ∧ object d !! "id" = Some "tree".
Proof.
  apply (C1_single_document _ (ElementTree [] tree_object));
    vm_compute; reflexivity.
Defined.

(** Counterexample to C2 as stated: in [shrubs.xml] the atlas
    document comes first and the processing instruction that declares
    type atlas stands between it and the two objects.  Nothing
    precedes the root of the first document, and [parse_file] ends in
    [AttributeError] instead of returning two definitions. *)
Lemma C2_instruction_after_atlas :
  files !! "/project/objects/shrubs.xml" = Some shrubs_lines
  ∧ parse_file "/project/objects/shrubs.xml" = Raise AttributeError.
Proof. split; vm_compute; reflexivity. Qed.

(** Witness of C2: [trees.xml]. *)
Lemma C2_atlas_with_two_objects_witness :
  ∃ d1 d2, parse_file "/project/objects/trees.xml" = Return [d1; d2].
Proof.
  destruct (C2_atlas_with_two_objects "/project/objects/trees.xml" 7 1
              trees_lines "fife"
              (ElementTree [atlas_pi] trees_atlas)
              (ElementTree [] (elem "objects" [] [oak_object; pine_object]))
              oak_image pine_image oak_object pine_object "oak.png" "pine.png")
    as (d1 & d2 & Hfile & _); [vm_compute; reflexivity..|].
  exists d1, d2. exact Hfile.
Defined.

(** Counterexample to C3 as stated: [parse_file] accepts [trees.xml],
    whose text is not one XML document, so that no definition of a
    plain document exists; the first element of the result is the
    definition of the first object of the combined document, parsed
    with the atlas. *)
Lemma C3_first_element_from_combined_document :
  ∃ d rest,
    parse_file "/project/objects/trees.xml" = Return (d :: rest)
    ∧ parse_object oak_object objects_dir (Some trees_index) = Return d
    ∧ etree_parse "/project/objects/trees.xml" = Raise (XMLSyntaxError (7, 1))
    ∧ ¬ ∃ tree, etree_parse "/project/objects/trees.xml" = Return tree
                ∧ parse_object (getroot tree) objects_dir None = Return d.
Proof.
  eexists _, _. split; [vm_compute; reflexivity|].
  split; [vm_compute; reflexivity|]. split; [vm_compute; reflexivity|].
  intros (tree & Htree & _). vm_compute in Htree. discriminate.
Qed.

(** Witness of C3: [trees.xml]. *)
Lemma C3_result_origin_witness :
  ∃ ds,
    parse_file "/project/objects/trees.xml" = Return ds
    ∧ ((∃ tree d,
          etree_parse "/project/objects/trees.xml" = Return tree
          ∧ parse_object (getroot tree)
              (os_path_dirname "/project/objects/trees.xml") None = Return d
          ∧ ds = [d])
       ∨ (∃ position lines first_doc atlas_tree ad second_doc objects_tree,
            parse_single "/project/objects/trees.xml"
              (os_path_dirname "/project/objects/trees.xml")
            = Raise (XMLSyntaxError position)
            ∧ readlines "/project/objects/trees.xml" = Return lines
            ∧ Py.ujoin (Py.slice_to lines (position.1 - 2)) = Return first_doc
            ∧ etree_parse_string first_doc = Return atlas_tree
            ∧ parse_atlas (getroot atlas_tree)
                (os_path_dirname "/project/objects/trees.xml") = Return ad
            ∧ Py.ujoin (wrapped lines (position.1 - 2)) = Return second_doc
            ∧ etree_parse_string second_doc = Return objects_tree
            ∧ Forall2
                (λ obj d,
                   parse_object obj
                     (os_path_dirname "/project/objects/trees.xml") (Some ad)
                   = Return d)
                (findall (getroot objects_tree) "object") ds)).
Proof.
  eexists. split; [vm_compute; reflexivity|].
  apply (C3_result_origin "/project/objects/trees.xml").
  vm_compute; reflexivity.
Defined.

(** C4 on [guard.xml]: the file is one XML document, so the first
    parse succeeds; the [XMLSyntaxError] comes from the animation
    file, raised inside [parse_object].  The [except] block runs all
    the same, slices [guard.xml] at the line of the error in the
    other file, and [parse_file] ends in the unexpected-file-format
    error. *)
Theorem C4_recovery_after_nested_error :
  etree_parse "/project/objects/guard.xml"
  = Return (ElementTree [object_pi] guard_object)
  ∧ etree_parse "/project/objects/guard_walk.xml" = Raise (XMLSyntaxError (4, 13))
  ∧ parse_object guard_object objects_dir None = Raise (XMLSyntaxError (4, 13))
  ∧ parse_file "/project/objects/guard.xml"
    = Raise (UnexpectedFileFormat "/project/objects/guard.xml").
Proof. repeat split; vm_compute; reflexivity. Qed.

(** Counterexample to C5 as stated: the [static] attribute of
    [rock_object] is neither "0" nor "1", and [parse_object] returns
    a definition of a static object. *)
Lemma C5_static_with_leading_zero :
  attrib rock_object !! "static" = Some "01"
  ∧ "01" ≠ "0" ∧ "01" ≠ "1"
  ∧ ∃ d, parse_object rock_object objects_dir None = Return d
         ∧ is_Some (directions d).
Proof.
  split; [vm_compute; reflexivity|]. do 2 (split; [discriminate|]).
  eexists. split; [vm_compute; reflexivity|]. simpl. eauto.
Qed.

(** Witness of C5: [portal_object], with [static] 2. *)
Lemma C5_unsupported_static_witness :
  ∃ tag,
    parse_object portal_object objects_dir None = Raise (UnsupportedObjectKind tag).
Proof.
  apply (C5_unsupported_static portal_object objects_dir None "2" 2
           (Child portal_image) []);
    vm_compute; (reflexivity || discriminate).
Defined.

(** Witness of C8: [short_animation], whose [id] is [girl:run]. *)
Lemma C8_short_animation_id_witness :
  parse_animation 0 short_animation objects_dir = Raise IndexError
  ∧ parse_animations [short_animation; run_old] objects_dir = Raise IndexError.
Proof.
  destruct (C8_short_animation_id short_animation "girl:run")
    as (He & _ & Hraise & Hanis & _);
    [vm_compute; reflexivity | vm_compute; reflexivity | vm_compute; lia |].
  rewrite Hraise, Hanis, He; [done | vm_compute; reflexivity..].
Defined.

(** Witness of C9: [idle_action] after [stand_action]. *)
Lemma C9_action_without_animations_witness :
  parse_actions [stand_action; idle_action; walk_action] objects_dir
  = Raise IndexError.
Proof.
  eapply (C9_action_without_animations [stand_action] [walk_action] idle_action);
    vm_compute; reflexivity.
Defined.

(** Witness of C10: in each of the three loops two children for
    direction 45; the mapping holds the second one. *)
Lemma C10_last_direction_wins_witness :
  (∃ d m image_def,
     parse_object sign_object objects_dir None = Return d
     ∧ directions d = Some m
     ∧ image_entry None objects_dir sign_new = Return (45, image_def)
     ∧ m !! 45 = Some image_def)
  ∧ (∃ m ani,
       parse_animations [run_old; run_new] objects_dir = Return (Multi m)
       ∧ animation_entry objects_dir run_new = Return (45, ani)
       ∧ m !! 45 = Some ani)
  ∧ (∃ a,
       parse_animation_atlas spin_animation objects_dir = Return a
       ∧ aa_directions a !! 45 = Some (DirData "75" "3")).
Proof.
  destruct (C10_last_direction_wins objects_dir) as (Himages & Hanis & Hdirs).
  split; [|split].
  - eexists _, _, _. split; [vm_compute; reflexivity|].
    split; [reflexivity|]. split; [vm_compute; reflexivity|].
    eapply (Himages sign_object None _ _ [sign_old] sign_new []);
      [vm_compute; reflexivity | reflexivity | vm_compute; reflexivity
      | vm_compute; reflexivity |].
    intros later v Hlater. by apply elem_of_nil in Hlater.
  - eexists _, _. split; [vm_compute; reflexivity|].
    split; [vm_compute; reflexivity|].
    eapply (Hanis [run_old; run_new] _ [run_old] run_new []);
      [vm_compute; reflexivity | reflexivity | vm_compute; reflexivity |].
    intros later v Hlater. by apply elem_of_nil in Hlater.
  - eexists. split; [vm_compute; reflexivity|].
    eapply (Hdirs spin_animation _ [spin_old] spin_new []);
      [vm_compute; reflexivity | vm_compute; reflexivity
      | vm_compute; reflexivity |].
    intros later v Hlater. by apply elem_of_nil in Hlater.
Defined.

End Examples.

(** ** More on loops *)

Lemma for_each_Raise {A S} (body : S → A → result S) (s : S) (xs : list A) (e : exn) :
  for_each body s xs = Raise e → ∃ s' x, x ∈ xs ∧ body s' x = Raise e.
Proof.
  revert s. induction xs as [|x xs IH]; intros s; simpl; [done|].
  destruct (body s x) as [s'|e'] eqn:Hx; simpl.
  - intros (s'' & y & Hy & He)%IH. exists s'', y. split; [by right|done].
  - intros [= ->]. exists s, x. split; [left|done].
Qed.

Lemma for_each_ext {A S} (body1 body2 : S → A → result S) (s : S) (xs : list A) :
  (∀ s x, x ∈ xs → body1 s x = body2 s x) →
  for_each body1 s xs = for_each body2 s xs.
Proof.
  revert s. induction xs as [|x xs IH]; intros s Hext; simpl; [done|].
  rewrite (Hext s x) by left. destruct (body2 s x) as [s'|e]; simpl; [|done].
  apply IH. intros s'' y Hy. apply Hext. by right.
Qed.

Section KeyedMore.
Context {A V K : Type} `{Countable K}.
Variable entry : A → result (K * V).
Variable body : gmap K V → A → result (gmap K V).
Hypothesis body_entry :
  ∀ m x, body m x = entry x ≫= λ kv, Return (<[kv.1 := kv.2]> m).

(** A loop that returns has got an entry from every element. *)
Lemma for_each_keyed_entries (xs : list A) (m0 m : gmap K V) :
  for_each body m0 xs = Return m → ∀ x, x ∈ xs → is_Return (entry x).
Proof.
  revert m0. induction xs as [|x xs IH]; intros m0 Hrun y Hy; simpl in Hrun.
  - by apply elem_of_nil in Hy.
  - rewrite body_entry in Hrun. apply bind_Return in Hrun as (m1 & Hx & Hrun).
    apply bind_Return in Hx as (kv & Hx & _).
    apply elem_of_cons in Hy as [->|Hy]; [by exists kv|by eapply IH].
Qed.

(** The keys of the mapping are the keys it started with and the
    keys of the entries. *)
Lemma for_each_keyed_is_Some (xs : list A) (k : K) (m0 m : gmap K V) :
  for_each body m0 xs = Return m →
  is_Some (m !! k)
  ↔ is_Some (m0 !! k) ∨ ∃ x v, x ∈ xs ∧ entry x = Return (k, v).
Proof.
  revert m0. induction xs as [|x xs IH]; intros m0 Hrun; simpl in Hrun.
  - inversion Hrun; subst. split; [by left|].
    intros [?|(x & v & Hx & _)]; [done|by apply elem_of_nil in Hx].
  - rewrite body_entry in Hrun. apply bind_Return in Hrun as (m1 & Hx & Hrun).
    apply bind_Return in Hx as ([k' v'] & Hx & Hm1). simpl in Hm1.
    inversion Hm1; subst m1; clear Hm1.
    rewrite (IH _ Hrun). rewrite lookup_insert_is_Some. split.
    + intros [[->|[_ Hm0]]|(y & v & Hy & Hentry)].
      * right. exists x, v'. split; [left|done].
      * by left.
      * right. exists y, v. split; [by right|done].
    + intros [Hm0|(y & v & Hy & Hentry)].
      * left. destruct (decide (k' = k)); [by left|by right].
      * apply elem_of_cons in Hy as [->|Hy].
        -- left. left. congruence.
        -- right. eauto.
Qed.

(** With pairwise different keys the mapping grows by one entry per
    element. *)
Lemma for_each_keyed_size (xs : list A) (m0 m : gmap K V) :
  for_each body m0 xs = Return m →
  (∀ x k v, x ∈ xs → entry x = Return (k, v) → m0 !! k = None) →
  (∀ i j x y k v w,
     xs !! i = Some x → xs !! j = Some y →
     entry x = Return (k, v) → entry y = Return (k, w) → i = j) →
  size m = (size m0 + length xs)%nat.
Proof.
  revert m0. induction xs as [|x xs IH]; intros m0 Hrun Hfresh Hdistinct;
    simpl in Hrun.
  - inversion Hrun; subst. simpl. lia.
  - rewrite body_entry in Hrun. apply bind_Return in Hrun as (m1 & Hx & Hrun).
    apply bind_Return in Hx as ([k' v'] & Hx & Hm1). simpl in Hm1.
    inversion Hm1; subst m1; clear Hm1.
    rewrite (IH _ Hrun).
    + rewrite map_size_insert_None by (eapply Hfresh; [left|done]).
      simpl. lia.
    + intros y k v Hy Hentry.
      rewrite lookup_insert_ne; [eapply Hfresh; [by right|done]|].
      intros ->. apply list_elem_of_lookup in Hy as [j Hj].
      by specialize (Hdistinct 0%nat (S j) x y k v' v eq_refl Hj Hx Hentry).
    + intros i j y z k v w Hi Hj Hy Hz.
      by specialize (Hdistinct (S i) (S j) y z k v w Hi Hj Hy Hz) as [= ->].
Qed.
End KeyedMore.

(** ** The atlas index *)

Section Atlas.
Context `{Platform}.

Lemma atlas_loop_Raise (imgs : list element) (m0 : gmap string element) :
  forallb (λ image, has_attr image "source") imgs = false →
  for_each
    (λ imgs image,
       image_name ← Py.getitem (attrib image) "source";
       mret (<[image_name := image]> imgs))
    m0 imgs = Raise (KeyError "source").
Proof.
  revert m0. induction imgs as [|image imgs IH]; intros m0; [done|].
  cbn [forallb for_each].
  destruct (attrib image !! "source") as [src|] eqn:Hsrc.
  - rewrite (has_attr_Some _ _ _ Hsrc), (getitem_Some _ _ _ Hsrc).
    cbn [andb mbind result_bind mret result_ret]. apply IH.
  - by rewrite (getitem_None _ _ Hsrc).
Qed.

Lemma atlas_loop_lookup (imgs : list element) (m0 m : gmap string element)
    (source : string) :
  for_each
    (λ imgs image,
       image_name ← Py.getitem (attrib image) "source";
       mret (<[image_name := image]> imgs))
    m0 imgs = Return m →
  m !! source
  = from_option Some (m0 !! source)
      (last (filter (λ image, attrib image !! "source" = Some source) imgs)).
Proof.
  revert m0. induction imgs as [|image imgs IH]; intros m0 Hrun.
  - by inversion Hrun.
  - cbn [for_each] in Hrun. apply bind_Return in Hrun as (m1 & Himage & Hrun).
    apply bind_Return in Himage as (src & Hsrc & Hm1).
    inversion Hm1; subst m1; clear Hm1.
    unfold Py.getitem in Hsrc.
    destruct (attrib image !! "source") as [src'|] eqn:Hattr; [|done].
    injection Hsrc as ->.
    rewrite (IH _ Hrun), filter_cons. case_decide as Hcase.
    + assert (src = source) as -> by congruence.
      rewrite last_cons, lookup_insert_eq. by destruct (last _).
    + rewrite lookup_insert_ne; [done|]. intros ->. by apply Hcase.
Qed.

(** X1: [parse_atlas] returns exactly when every [image] child of the
    atlas element has a [source]; otherwise it raises
    [KeyError("source")].  The index it returns keeps the element
    itself under ["atlas"] and maps each source to the last image that
    names it; a source no image names is no key. *)
Theorem X1_parse_atlas_index (element : element) (root_path : string) :
  (forallb (λ image, has_attr image "source") (findall element "image") = false →
   parse_atlas element root_path = Raise (KeyError "source"))
  ∧ (forallb (λ image, has_attr image "source") (findall element "image") = true →
     ∃ ad, parse_atlas element root_path = Return ad
           ∧ atlas ad = element
           ∧ ∀ source, images ad !! source = last (images_named source element)).
Proof.
  split; intros Hall; unfold parse_atlas.
  - by rewrite atlas_loop_Raise.
  - destruct (for_each _ _ _) as [m|e] eqn:Hm.
    + eexists. split; [done|]. split; [done|].
      intros source. simpl. rewrite (atlas_loop_lookup _ _ _ source Hm).
      unfold images_named. rewrite lookup_empty. by destruct (last _).
    + apply for_each_Raise in Hm as (m & image & Himage & Hraise).
      destruct (has_attr_true _ _ (forallb_elem_of _ _ _ Hall Himage)) as [src Hsrc].
      by rewrite (getitem_Some _ _ _ Hsrc) in Hraise.
Qed.

End Atlas.

(** ** What an animation definition holds *)

Section AnimationResults.
Context `{Platform}.

Lemma omap_length_all {A B} (f : A → option B) (l : list A) :
  Forall (λ x, is_Some (f x)) l → length (omap f l) = length l.
Proof.
  induction 1 as [|x l [y Hy] _ IH]; [done|].
  simpl. rewrite Hy. simpl. f_equal. exact IH.
Qed.

Lemma parse_frames_Return_inv (animation : element) (root_path : string)
    (ani : ani_def) :
  parse_frames animation root_path = Return ani →
  frames ani = frame_paths animation root_path
  ∧ length (frames ani) = length (findall animation "frame")
  ∧ delay ani = None
  ∧ (∃ id, attrib animation !! "id" = Some id
           ∧ Py.split ":" id !! 2%nat = Some (direction ani))
  ∧ attrib animation !! "x_offset" = Some (x_offset ani)
  ∧ attrib animation !! "y_offset" = Some (y_offset ani).
Proof.
  unfold parse_frames. rewrite frames_loop.
  destruct (forallb _ _) eqn:Hall; [|done]. intros Hani.
  apply bind_Return in Hani as (fr & [= <-] & Hani).
  apply bind_Return in Hani as (id & Hid & Hani).
  apply bind_Return in Hani as (dir & Hdir & Hani).
  apply bind_Return in Hani as (x & Hx & Hani).
  apply bind_Return in Hani as (y & Hy & Hani).
  inversion Hani; subst ani; clear Hani. simpl.
  unfold Py.getitem in Hid, Hx, Hy. unfold Py.index in Hdir.
  destruct (attrib animation !! "id") as [id'|]; [|done].
  destruct (attrib animation !! "x_offset") as [x'|]; [|done].
  destruct (attrib animation !! "y_offset") as [y'|]; [|done].
  injection Hid as ->. injection Hx as ->. injection Hy as ->.
  destruct (Py.split ":" id !! 2%nat) as [dir'|] eqn:Hseg; [|done].
  injection Hdir as ->.
  split; [done|]. split; [|repeat split; eauto].
  apply omap_length_all, Forall_forall. intros frame Hframe.
  destruct (has_attr_true _ _ (forallb_elem_of _ _ _ Hall Hframe)) as [src ->].
  by eexists.
Qed.

Lemma parse_animation_inline (depth : nat) (animation : element) (root_path : string) :
  attrib animation !! "source" = None →
  parse_animation depth animation root_path = parse_frames animation root_path.
Proof. intros Hinline. destruct depth; simpl; by rewrite Hinline. Qed.

(** X2: the definition of an inline animation (no [source]
    attribute) lists one absolute path per [frame] child, in document
    order, each resolved from [root_path]; it has no ["delay"]; its
    direction is the third colon-separated segment of the [id], and
    the offsets are the attribute texts. *)
Theorem X2_inline_animation (depth : nat) (animation : element)
    (root_path : string) (ani : ani_def) :
  attrib animation !! "source" = None →
  parse_animation depth animation root_path = Return ani →
  frames ani = frame_paths animation root_path
  ∧ length (frames ani) = length (findall animation "frame")
  ∧ delay ani = None
  ∧ (∃ id, attrib animation !! "id" = Some id
           ∧ Py.split ":" id !! 2%nat = Some (direction ani))
  ∧ attrib animation !! "x_offset" = Some (x_offset ani)
  ∧ attrib animation !! "y_offset" = Some (y_offset ani).
Proof.
  intros Hinline. rewrite parse_animation_inline by done.
  apply parse_frames_Return_inv.
Qed.

(** X3: the definition of a redirected animation (with a [source]
    attribute) comes from the root of the file named there: the file
    parses, its root has a [delay], and the definition has a
    ["delay"].  When that root is an inline animation, the delay is
    the root's, the direction comes from the root's [id], and the frame
    paths are resolved from the directory of the animation file, not
    from [root_path]. *)
Theorem X3_redirected_animation (depth : nat) (animation : element)
    (root_path file : string) (ani : ani_def) :
  attrib animation !! "source" = Some file →
  parse_animation depth animation root_path = Return ani →
  ∃ doc d,
    etree_parse (os_path_join root_path file) = Return doc
    ∧ attrib (getroot doc) !! "delay" = Some d
    ∧ is_Some (delay ani)
    ∧ (attrib (getroot doc) !! "source" = None →
       delay ani = Some d
       ∧ frames ani
         = frame_paths (getroot doc)
             (os_path_dirname (os_path_join root_path file))
       ∧ ∃ id, attrib (getroot doc) !! "id" = Some id
               ∧ Py.split ":" id !! 2%nat = Some (direction ani)).
Proof.
  intros Hsource Hani. destruct depth as [|depth]; simpl in Hani;
    rewrite Hsource in Hani; [done|].
  apply bind_Return in Hani as (doc & Hdoc & Hani).
  apply bind_Return in Hani as (d & Hd & Hani).
  apply bind_Return in Hani as (inner & Hinner & Hani).
  inversion Hani; subst ani; clear Hani.
  unfold Py.getitem in Hd.
  destruct (attrib (getroot doc) !! "delay") as [d'|] eqn:Hdelay; [|done].
  injection Hd as ->.
  exists doc, d. split; [done|]. split; [done|]. split; [by eexists|].
  intros Hinline. rewrite parse_animation_inline in Hinner by done.
  apply parse_frames_Return_inv in Hinner as (Hframes & _ & Hnone & Hid & _).
  simpl. rewrite Hnone. done.
Qed.

(** X4: an animation file whose root redirects to the file itself
    never yields a definition: whatever the depth the interpreter
    allows, [parse_animation] ends in the recursion [RuntimeError]. *)
Theorem X4_cyclic_redirection (animation : element) (root_path file file' d : string)
    (doc : etree) :
  attrib animation !! "source" = Some file →
  etree_parse (os_path_join root_path file) = Return doc →
  attrib (getroot doc) !! "delay" = Some d →
  attrib (getroot doc) !! "source" = Some file' →
  os_path_join (os_path_dirname (os_path_join root_path file)) file'
  = os_path_join root_path file →
  ∀ depth, ∃ msg,
    parse_animation depth animation root_path = Raise (RuntimeError msg).
Proof.
  intros Hsource Hdoc Hdelay Hagain Hsame.
  assert (Hroot : ∀ depth, ∃ msg,
    parse_animation depth (getroot doc)
      (os_path_dirname (os_path_join root_path file)) = Raise (RuntimeError msg)).
  { induction depth as [|depth [msg IH]]; simpl; rewrite Hagain; [by eexists|].
    rewrite Hsame, Hdoc. cbn [mbind result_bind].
    rewrite (getitem_Some _ _ _ Hdelay). cbn [mbind result_bind].
    rewrite IH. by eexists. }
  intros [|depth]; simpl; rewrite Hsource; [by eexists|].
  rewrite Hdoc. cbn [mbind result_bind].
  rewrite (getitem_Some _ _ _ Hdelay). cbn [mbind result_bind].
  destruct (Hroot depth) as [msg ->]. by eexists.
Qed.

End AnimationResults.

(** ** The mapping of actions *)

Section Actions.
Context `{Platform}.

Lemma actions_body_entry (root_path : string) (m : gmap string ani_dict)
    (action : element) :
  (animations ← parse_animations (findall action "animation") root_path;
   id ← Py.getitem (attrib action) "id";
   mret (<[id := animations]> m))
  = action_entry root_path action ≫= λ kv, Return (<[kv.1 := kv.2]> m).
Proof.
  unfold action_entry.
  destruct (parse_animations _ _) as [anis|e]; simpl; [|done].
  by destruct (Py.getitem _ _).
Qed.

Lemma action_entry_Return (root_path : string) (action : element)
    (id : string) (anis : ani_dict) :
  action_entry root_path action = Return (id, anis)
  ↔ parse_animations (findall action "animation") root_path = Return anis
    ∧ attrib action !! "id" = Some id.
Proof.
  unfold action_entry, Py.getitem.
  destruct (parse_animations _ _) as [anis'|e]; simpl; [|by split; [|intros []]].
  destruct (attrib action !! "id") as [id'|]; simpl.
  - split; [by intros [= -> ->]|by intros [[= ->] [= ->]]].
  - by split; [|intros []].
Qed.

(** X5: when [parse_actions] returns, the keys of the mapping are
    exactly the [id]s of the action elements, and under each [id] lies
    what [parse_animations] made of the animations of the last action
    with that [id]. *)
Theorem X5_actions_by_id (actions : list element) (root_path : string)
    (m : gmap string ani_dict) :
  parse_actions actions root_path = Return m →
  (∀ id, is_Some (m !! id)
         ↔ ∃ action, action ∈ actions ∧ attrib action !! "id" = Some id)
  ∧ (∀ pre action post id,
       actions = pre ++ action :: post →
       attrib action !! "id" = Some id →
       (∀ later, later ∈ post → attrib later !! "id" ≠ Some id) →
       ∃ anis,
         parse_animations (findall action "animation") root_path = Return anis
         ∧ m !! id = Some anis).
Proof.
  intros Hm. unfold parse_actions in Hm. split.
  - intros id.
    rewrite (for_each_keyed_is_Some _ _ (actions_body_entry root_path) _ id _ _ Hm).
    rewrite lookup_empty. split.
    + intros [[? [=]]|(action & anis & Haction & Hentry)].
      apply action_entry_Return in Hentry as [_ Hid]. eauto.
    + intros (action & Haction & Hid). right.
      destruct (for_each_keyed_entries _ _ (actions_body_entry root_path)
                  _ _ _ Hm action Haction) as [[id' anis] Hentry].
      pose proof Hentry as [_ Hid']%action_entry_Return.
      exists action, anis. split; [done|]. congruence.
  - intros pre action post id -> Hid Hpost.
    destruct (for_each_keyed_entries _ _ (actions_body_entry root_path)
                _ _ _ Hm action) as [[id' anis] Hentry].
    { apply elem_of_app. right. left. }
    pose proof Hentry as [Hanis Hid']%action_entry_Return.
    assert (id' = id) as -> by congruence.
    exists anis. split; [done|].
    apply (for_each_last_wins _ _ (actions_body_entry root_path)
             _ pre post action id anis ∅ m Hm eq_refl Hentry).
    intros later v Hlater [_ Hlid]%action_entry_Return.
    by apply (Hpost later).
Qed.

End Actions.

(** ** What an object definition holds *)

Section ObjectResults.
Context `{Platform}.

Lemma parse_object_Return_inv (obj : element) (root_path : string)
    (atlas_def : option atlas_def) (d : obj_def) :
  parse_object obj root_path atlas_def = Return d →
  ∃ s, attrib obj !! "static" = Some s
       ∧ ((Py.int s = Return 0
           ∧ ∃ acts, parse_actions (findall obj "action") root_path = Return acts
                     ∧ d = ObjDef (attrib obj) (Some acts) None)
          ∨ (Py.int s = Return 1
             ∧ ∃ dirs,
                 for_each
                   (λ dir_defs image,
                      image_def ← parse_image atlas_def root_path image;
                      d ← Py.getitem image_def "direction";
                      dir ← Py.int d;
                      mret (<[dir := image_def]> dir_defs))
                   ∅ (findall obj "image") = Return dirs
                 ∧ d = ObjDef (attrib obj) None (Some dirs))).
Proof.
  unfold parse_object. intros Hd.
  apply bind_Return in Hd as (s & Hs & Hd).
  apply bind_Return in Hd as (static & Hstatic & Hd).
  unfold Py.getitem in Hs.
  destruct (attrib obj !! "static") as [s'|]; [|done]. injection Hs as ->.
  exists s. split; [done|]. repeat case_decide; subst.
  - left. split; [done|].
    apply bind_Return in Hd as (acts & Hacts & Hd). inversion Hd. eauto.
  - right. split; [done|].
    apply bind_Return in Hd as (dirs & Hdirs & Hd). inversion Hd. eauto.
  - by apply bind_Return in Hd as (? & _ & ?).
Qed.

(** X6: a definition [parse_object] returns carries the attributes of
    the element under ["object"] and exactly one of ["actions"] and
    ["directions"]: ["actions"] when [static] reads as 0,
    ["directions"] when it reads as 1. *)
Theorem X6_object_variant (obj : element) (root_path : string)
    (atlas_def : option atlas_def) (d : obj_def) :
  parse_object obj root_path atlas_def = Return d →
  object d = attrib obj
  ∧ ∃ s, attrib obj !! "static" = Some s
         ∧ ((Py.int s = Return 0 ∧ is_Some (actions d) ∧ directions d = None)
            ∨ (Py.int s = Return 1 ∧ actions d = None ∧ is_Some (directions d))).
Proof.
  intros (s & Hs & [(Hint & acts & _ & ->)|(Hint & dirs & _ & ->)])%parse_object_Return_inv;
    (split; [done|]); exists s; (split; [done|]); [left|right]; eauto.
Qed.

Lemma parse_object_directions (obj : element) (root_path : string)
    (atlas_def : option atlas_def) (d : obj_def) (m : gmap Z (gmap string string)) :
  parse_object obj root_path atlas_def = Return d →
  directions d = Some m →
  for_each
    (λ dir_defs image,
       image_def ← parse_image atlas_def root_path image;
       d ← Py.getitem image_def "direction";
       dir ← Py.int d;
       mret (<[dir := image_def]> dir_defs))
    ∅ (findall obj "image") = Return m.
Proof.
  intros (s & Hs & [(_ & acts & _ & ->)|(_ & dirs & Hdirs & ->)])%parse_object_Return_inv;
    [done|]. by intros [= <-].
Qed.

(** X7: the ["directions"] of a static object have a key for every
    direction an image contributes and no other key; when the images
    contribute pairwise different directions, the mapping has as many
    entries as the object has image children. *)
Theorem X7_static_directions (obj : element) (root_path : string)
    (atlas_def : option atlas_def) (d : obj_def) (m : gmap Z (gmap string string)) :
  parse_object obj root_path atlas_def = Return d →
  directions d = Some m →
  (∀ n, is_Some (m !! n)
        ↔ ∃ image v, image ∈ findall obj "image"
                     ∧ image_entry atlas_def root_path image = Return (n, v))
  ∧ ((∀ i j image1 image2 n v w,
        findall obj "image" !! i = Some image1 →
        findall obj "image" !! j = Some image2 →
        image_entry atlas_def root_path image1 = Return (n, v) →
        image_entry atlas_def root_path image2 = Return (n, w) → i = j) →
     size m = length (findall obj "image")).
Proof.
  intros Hd Hm. pose proof (parse_object_directions _ _ _ _ _ Hd Hm) as Hloop.
  split.
  - intros n.
    rewrite (for_each_keyed_is_Some _ _ (images_body_entry atlas_def root_path)
               _ n _ _ Hloop).
    rewrite lookup_empty. split; [intros [[? [=]]|?]; done|by right].
  - intros Hdistinct.
    rewrite (for_each_keyed_size _ _ (images_body_entry atlas_def root_path)
               _ _ _ Hloop); [by rewrite map_size_empty| |done].
    intros. apply lookup_empty.
Qed.

Lemma parse_image_no_source (atlas_def : option atlas_def) (root_path : string)
    (image : element) :
  attrib image !! "source" = None →
  parse_image atlas_def root_path image = Raise (KeyError "source").
Proof. intros Hnone. unfold parse_image. by rewrite (getitem_None _ _ Hnone). Qed.

Lemma parse_image_no_name (ad : atlas_def) (root_path : string)
    (image entry : element) (source : string) :
  attrib image !! "source" = Some source →
  images ad !! source = Some entry →
  attrib (atlas ad) !! "name" = None →
  parse_image (Some ad) root_path image = Raise (KeyError "name").
Proof.
  intros Hsource Hentry Hname. unfold parse_image.
  rewrite (getitem_Some _ _ _ Hsource). cbn [mbind result_bind from_option].
  rewrite Hentry. cbn [mbind result_bind mret result_ret].
  by rewrite (getitem_None _ _ Hname).
Qed.

(** X8: an atlas index that knows none of the sources of the images
    of an object changes nothing: [parse_object] gives the same
    result, definition or exception, as without an atlas. *)
Theorem X8_unindexed_sources (obj : element) (root_path : string) (ad : atlas_def) :
  (∀ image source,
     image ∈ findall obj "image" →
     attrib image !! "source" = Some source →
     images ad !! source = None) →
  parse_object obj root_path (Some ad) = parse_object obj root_path None.
Proof.
  intros Hunknown. unfold parse_object.
  destruct (Py.getitem (attrib obj) "static") as [s|]; [|done].
  cbn [mbind result_bind]. destruct (Py.int s) as [static|]; [|done].
  cbn [mbind result_bind]. repeat case_decide; try done.
  f_equal. apply for_each_ext. intros m image Himage. f_equal.
  destruct (attrib image !! "source") as [source|] eqn:Hsource.
  - rewrite !(parse_image_standalone _ _ _ source); try done.
    simpl. by eapply Hunknown.
  - by rewrite !parse_image_no_source.
Qed.

Lemma parse_image_Raise (atlas_def : option atlas_def) (root_path : string)
    (image : element) (e : exn) :
  parse_image atlas_def root_path image = Raise e →
  e = KeyError "source"
  ∨ (e = KeyError "name"
     ∧ ∃ ad source, atlas_def = Some ad ∧ attrib image !! "source" = Some source
                    ∧ is_Some (images ad !! source)).
Proof.
  destruct (attrib image !! "source") as [source|] eqn:Hsource;
    [|rewrite parse_image_no_source by done; intros [= <-]; by left].
  destruct (from_option images ∅ atlas_def !! source) as [entry|] eqn:Hentry;
    [|by rewrite (parse_image_standalone _ _ _ source)].
  destruct atlas_def as [ad|]; simpl in Hentry;
    [|by rewrite lookup_empty in Hentry].
  destruct (attrib (atlas ad) !! "name") as [name|] eqn:Hname.
  - by rewrite (parse_image_atlas _ _ _ entry source name).
  - rewrite (parse_image_no_name _ _ _ entry source) by done.
    intros [= <-]. right. split; [done|]. exists ad, source. eauto.
Qed.

Lemma image_entry_Raise (atlas_def : option atlas_def) (root_path : string)
    (image : element) (e : exn) :
  image_entry atlas_def root_path image = Raise e →
  e = ValueError ∨ e = KeyError "source" ∨ e = KeyError "direction"
  ∨ (e = KeyError "name" ∧ is_Some atlas_def).
Proof.
  unfold image_entry.
  destruct (parse_image _ _ _) as [image_def|e'] eqn:Himage; simpl.
  - unfold Py.getitem. destruct (image_def !! "direction") as [d|]; simpl.
    + destruct (Py.int d) as [n|e'] eqn:Hint; simpl; [done|].
      intros [= <-]. left. by eapply int_raises.
    + intros [= <-]. by right; right; left.
  - intros [= <-].
    apply parse_image_Raise in Himage as [->|[-> (ad & ? & -> & _)]];
      [by right; left|]. right; right; right. split; [done|by eexists].
Qed.

(** The exceptions of the branch for static objects. *)
Lemma parse_object_static_Raise (obj : element) (root_path : string)
    (atlas_def : option atlas_def) (e : exn) :
  Py.int <$> attrib obj !! "static" = Some (Return 1) →
  parse_object obj root_path atlas_def = Raise e →
  e = ValueError ∨ e = KeyError "source" ∨ e = KeyError "direction"
  ∨ (e = KeyError "name" ∧ is_Some atlas_def).
Proof.
  intros Hstatic. rewrite parse_object_static by done.
  destruct (for_each _ _ _) as [dirs|e'] eqn:Hloop; [done|].
  intros [= <-].
  apply for_each_Raise in Hloop as (m & image & _ & Hbody).
  rewrite images_body_entry in Hbody.
  destruct (image_entry _ _ _) as [kv|e''] eqn:Hentry; [done|].
  injection Hbody as ->. by eapply image_entry_Raise.
Qed.

(** X9: a file that parses as one document with a static root object
    ([static] reads as 1) never enters the [except] block: [parse_file]
    returns the one definition or raises what [parse_object] raises,
    and that is [ValueError] or the [KeyError] of a missing [source]
    or [direction]. *)
Theorem X9_static_file (filename : string) (tree : etree) :
  etree_parse filename = Return tree →
  Py.int <$> attrib (getroot tree) !! "static" = Some (Return 1) →
  parse_file filename
  = parse_object (getroot tree) (os_path_dirname filename) None
    ≫= (λ o, Return [o])
  ∧ ∀ e, parse_file filename = Raise e →
         e = ValueError ∨ e = KeyError "source" ∨ e = KeyError "direction".
Proof.
  intros Htree Hstatic.
  assert (Hraise : ∀ e,
    parse_object (getroot tree) (os_path_dirname filename) None = Raise e →
    e = ValueError ∨ e = KeyError "source" ∨ e = KeyError "direction").
  { intros e He.
    destruct (parse_object_static_Raise _ _ _ _ Hstatic He)
      as [?|[?|[?|[_ [? [=]]]]]]; eauto. }
  assert (Hfile : parse_file filename
    = parse_object (getroot tree) (os_path_dirname filename) None
      ≫= (λ o, Return [o])).
  { unfold parse_file. rewrite (parse_file_single _ _ Htree).
    destruct (parse_object _ _ _) as [o|e] eqn:Hobj; [done|]. simpl.
    by destruct (Hraise e eq_refl) as [->|[->| ->]]. }
  split; [done|]. intros e. rewrite Hfile.
  destruct (parse_object _ _ _) as [o|e'] eqn:Hobj; [done|].
  intros [= <-]. by apply Hraise.
Qed.

(** X12: for an image the atlas index knows, the direction is read
    after the attributes of the atlas entry are merged in: when the
    entry has a [direction] of its own, the image is stored under that
    direction, whatever [direction] the image element itself has. *)
Theorem X12_atlas_direction_wins (ad : atlas_def) (root_path : string)
    (image entry : element) (source name d : string) (n : Z) :
  attrib image !! "source" = Some source →
  images ad !! source = Some entry →
  attrib (atlas ad) !! "name" = Some name →
  attrib entry !! "direction" = Some d →
  Py.int d = Return n →
  ∃ image_def,
    image_entry (Some ad) root_path image = Return (n, image_def)
    ∧ image_def !! "direction" = Some d.
Proof.
  intros Hsource Hentry Hname Hd Hn. unfold image_entry.
  rewrite (parse_image_atlas _ _ _ _ _ _ Hsource Hentry Hname).
  cbn [mbind result_bind].
  assert (Hdir : (<["source" := os_path_abspath (os_path_join root_path name)]>
                   (<["source" := name]>
                     (<["type" := "atlas"]> (attrib entry ∪ attrib image))))
                 !! "direction" = Some d).
  { rewrite !lookup_insert_ne by done. by apply lookup_union_Some_l. }
  rewrite (getitem_Some _ _ _ Hdir). cbn [mbind result_bind]. rewrite Hn.
  by eexists.
Qed.

End ObjectResults.

(** ** Accepted objects are well-formed *)

Section Soundness.
Context `{Platform}.













End Soundness.

(** ** More on files *)

Section FileResults.
Context `{Platform}.

Lemma split_key_value (sep : ascii) (key value : string) :
  has_char sep key = false →
  Py.split sep (key +:+ String sep value) = key :: Py.split sep value.
Proof.
  induction key as [|a key IH]; simpl.
  - intros _. by rewrite decide_True.
  - intros [Ha Hkey]%orb_false_elim. apply bool_decide_eq_false in Ha.
    rewrite decide_False by done. by rewrite (IH Hkey).
Qed.

Lemma split_no_separator (sep : ascii) (s : string) :
  has_char sep s = false → Py.split sep s = [s].
Proof.
  induction s as [|a s IH]; simpl; [done|].
  intros [Ha Hs]%orb_false_elim. apply bool_decide_eq_false in Ha.
  rewrite decide_False by done. by rewrite (IH Hs).
Qed.

(** X10: a file in the two-document layout gives one definition per
    [object] element of the second document, in document order and
    parsed with the atlas of the first document, for any number of
    objects; with no [object] element the result is the empty list. *)
Theorem X10_one_definition_per_object (filename : string) (position : Z * Z)
    (lines : list string) (first_doc second_doc pi_text declared : string)
    (atlas_tree objects_tree : etree) (pi : misc) (ad : atlas_def) :
  let root_path := os_path_dirname filename in
  parse_single filename root_path = Raise (XMLSyntaxError position) →
  readlines filename = Return lines →
  Py.ujoin (Py.slice_to lines (position.1 - 2)) = Return first_doc →
  etree_parse_string first_doc = Return atlas_tree →
  getprevious atlas_tree = Some pi →
  text pi = Some pi_text →
  Py.split "=" pi_text !! 1%nat = Some declared →
  Py.lower (Py.remove_char dquote declared) = "atlas" →
  parse_atlas (getroot atlas_tree) root_path = Return ad →
  Py.ujoin (wrapped lines (position.1 - 2)) = Return second_doc →
  etree_parse_string second_doc = Return objects_tree →
  forallb (λ obj, wf_object obj root_path (Some ad))
    (findall (getroot objects_tree) "object") = true →
  ∃ ds,
    parse_file filename = Return ds
    ∧ length ds = length (findall (getroot objects_tree) "object")
    ∧ Forall2 (λ obj d, parse_object obj root_path (Some ad) = Return d
                        ∧ object d = attrib obj)
        (findall (getroot objects_tree) "object") ds.
Proof.
  intros root_path Hsingle Hlines Hfirst Hatlas Hpi Htext Hdeclared Htype Had
    Hsecond Hobjects Hwf.
  assert (Hall : ∃ ds,
    Forall2 (λ obj d, parse_object obj root_path (Some ad) = Return d
                      ∧ object d = attrib obj)
      (findall (getroot objects_tree) "object") ds).
  { induction (findall (getroot objects_tree) "object") as [|obj objs IH];
      [by exists []|].
    simpl in Hwf. apply andb_prop in Hwf as [Hobj Hobjs].
    destruct (IH Hobjs) as [ds Hds].
    destruct (wf_object_parse _ _ _ Hobj) as (d & Hd & Ho).
    exists (d :: ds). by constructor. }
  destruct Hall as [ds Hds]. exists ds.
  split; [|split; [symmetry; by eapply Forall2_length|done]].
  rewrite (parse_file_recover _ _ Hsingle).
  rewrite (parse_dual_declared _ _ _ _ _ _ _ _ _
             Hlines Hfirst Hatlas Hpi Htext Hdeclared).
  rewrite decide_True by done. fold root_path. rewrite Had.
  cbn [mbind result_bind]. rewrite Hsecond. cbn [mbind result_bind].
  rewrite Hobjects. cbn [mbind result_bind].
  apply (objects_loop_Return (λ obj, parse_object obj root_path (Some ad))
           _ [] ds).
  eapply Forall2_impl; [done|]. by intros obj d [? _].
Qed.

(** X11: in the [except] block only the text between the first and
    the second [=] of the instruction before the first document is
    looked at.  For a text [key=value] the key is never compared with
    anything; when [value], without its double quotes and in lower
    case, is not "atlas", [parse_file] raises the unexpected-format
    [RuntimeError] with the file name in it. *)
Theorem X11_declared_type (filename : string) (position : Z * Z)
    (lines : list string) (first_doc key value : string)
    (atlas_tree : etree) (pi : misc) :
  parse_single filename (os_path_dirname filename)
  = Raise (XMLSyntaxError position) →
  readlines filename = Return lines →
  Py.ujoin (Py.slice_to lines (position.1 - 2)) = Return first_doc →
  etree_parse_string first_doc = Return atlas_tree →
  getprevious atlas_tree = Some pi →
  text pi = Some (key +:+ String "=" value) →
  has_char "=" key = false →
  has_char "=" value = false →
  Py.lower (Py.remove_char dquote value) ≠ "atlas" →
  parse_file filename = Raise (UnexpectedFileFormat filename).
Proof.
  intros Hsingle Hlines Hfirst Hatlas Hpi Htext Hkey Hvalue Hother.
  apply (parse_file_unexpected_format _ position lines first_doc atlas_tree
           pi (key +:+ String "=" value) value); try done.
  by rewrite split_key_value, split_no_separator.
Qed.

End FileResults.

(** ** The further properties on the fixtures *)

Module MoreExamples.
Import Fixtures.
#[local] Existing Instance world.

(** Witness of X1: the atlas of [trees.xml]. *)
Lemma X1_parse_atlas_index_witness :
  ∃ ad, parse_atlas trees_atlas objects_dir = Return ad
        ∧ atlas ad = trees_atlas
        ∧ images ad !! "oak.png" = Some oak_image.
Proof.
  destruct (X1_parse_atlas_index trees_atlas objects_dir) as [_ Hindex].
  destruct Hindex as (ad & Had & Hatlas & Himages); [vm_compute; reflexivity|].
  exists ad. split; [done|]. split; [done|].
  rewrite Himages. vm_compute. reflexivity.
Defined.

(** Witness of X2: the root of [walk/animation.xml]. *)
Lemma X2_inline_animation_witness :
  ∃ ani,
    parse_animation 0 walk_animation "/project/objects/walk" = Return ani
    ∧ frames ani = ["/project/objects/walk/w0.png"; "/project/objects/walk/w1.png"]
    ∧ delay ani = None.
Proof.
  eexists. split; [vm_compute; reflexivity|].
  edestruct (X2_inline_animation 0 walk_animation "/project/objects/walk")
    as (Hframes & _ & Hdelay & _);
    [vm_compute; reflexivity | vm_compute; reflexivity |].
  split; [|exact Hdelay]. rewrite Hframes. vm_compute. reflexivity.
Defined.

(** Witness of X3: the animation of the walk action of [girl.xml]. *)
Lemma X3_redirected_animation_witness :
  ∃ ani,
    parse_animation 1 (elem "animation" [("source", "walk/animation.xml")] [])
      objects_dir = Return ani
    ∧ delay ani = Some "100"
    ∧ frames ani = ["/project/objects/walk/w0.png"; "/project/objects/walk/w1.png"].
Proof.
  eexists. split; [vm_compute; reflexivity|].
  edestruct (X3_redirected_animation 1
               (elem "animation" [("source", "walk/animation.xml")] [])
               objects_dir "walk/animation.xml")
    as (doc & d & Hdoc & Hd & _ & Hinline);
    [vm_compute; reflexivity | vm_compute; reflexivity |].
  vm_compute in Hdoc. injection Hdoc as <-.
  vm_compute in Hd. injection Hd as <-.
  destruct Hinline as (Hdelay & Hframes & _); [vm_compute; reflexivity|].
  split; [exact Hdelay|]. rewrite Hframes. vm_compute. reflexivity.
Defined.

(** Witness of X4: [loop.xml], whose root names [loop.xml]. *)
Lemma X4_cyclic_redirection_witness :
  ∃ msg,
    @parse_animation loop_world 7 loop_animation objects_dir
    = Raise (RuntimeError msg).
Proof.
  apply (@X4_cyclic_redirection loop_world loop_animation objects_dir
           "loop.xml" "loop.xml" "100" (ElementTree [] loop_animation));
    vm_compute; reflexivity.
Defined.

(** Witness of X5: the actions of [girl.xml]. *)
Lemma X5_actions_by_id_witness :
  ∃ m, parse_actions [walk_action; stand_action] objects_dir = Return m
       ∧ is_Some (m !! "walk").
Proof.
  eexists. split; [vm_compute; reflexivity|].
  edestruct (X5_actions_by_id [walk_action; stand_action] objects_dir)
    as [Hkeys _]; [vm_compute; reflexivity|].
  apply Hkeys. exists walk_action. split; [left|vm_compute; reflexivity].
Defined.

(** Witness of X6: the object of [tree.xml]. *)
Lemma X6_object_variant_witness :
  ∃ d, parse_object tree_object objects_dir None = Return d
       ∧ object d = attrib tree_object.
Proof.
  eexists. split; [vm_compute; reflexivity|].
  edestruct (X6_object_variant tree_object objects_dir None) as [Hobject _];
    [vm_compute; reflexivity|].
  exact Hobject.
Defined.

(** Witness of X7: the two directions of [tree.xml]. *)
Lemma X7_static_directions_witness :
  ∃ d m, parse_object tree_object objects_dir None = Return d
         ∧ directions d = Some m
         ∧ size m = 2%nat.
Proof.
  eexists _, _. split; [vm_compute; reflexivity|]. split; [reflexivity|].
  edestruct (X7_static_directions tree_object objects_dir None) as [_ Hsize];
    [vm_compute; reflexivity | reflexivity |].
  apply Hsize.
  intros [|[|i]] [|[|j]] image1 image2 n v w H1 H2 He1 He2;
    vm_compute in H1, H2; try discriminate; try reflexivity;
    injection H1 as <-; injection H2 as <-;
    vm_compute in He1, He2; congruence.
Defined.

(** Witness of X8: the atlas of [trees.xml] does not know the images
    of [tree.xml]. *)
Lemma X8_unindexed_sources_witness :
  parse_object tree_object objects_dir (Some trees_index)
  = parse_object tree_object objects_dir None.
Proof.
  apply X8_unindexed_sources. intros image source Himage Hsource.
  apply list_elem_of_lookup in Himage as [[|[|i]] Hi];
    vm_compute in Hi; try discriminate;
    injection Hi as <-; vm_compute in Hsource; injection Hsource as <-;
    vm_compute; reflexivity.
Defined.

(** Witness of X9: [tree.xml]. *)
Lemma X9_static_file_witness :
  parse_file "/project/objects/tree.xml"
  = parse_object tree_object (os_path_dirname "/project/objects/tree.xml") None
    ≫= (λ o, Return [o]).
Proof.
  destruct (X9_static_file "/project/objects/tree.xml" (ElementTree [] tree_object))
    as [Hfile _]; [vm_compute; reflexivity | vm_compute; reflexivity |].
  exact Hfile.
Defined.

(** Witness of X10: [trees.xml]. *)
Lemma X10_one_definition_per_object_witness :
  ∃ ds, parse_file "/project/objects/trees.xml" = Return ds
        ∧ length ds = 2%nat.
Proof.
  destruct (X10_one_definition_per_object "/project/objects/trees.xml" (7, 1)
              trees_lines (text_of (take 5 trees_lines))
              (text_of (wrapped trees_lines 5))
              ("type=" +:+ quoted "atlas") (quoted "atlas")
              (ElementTree [atlas_pi] trees_atlas)
              (ElementTree [] (elem "objects" [] [oak_object; pine_object]))
              atlas_pi trees_index)
    as (ds & Hfile & Hlength & _); [vm_compute; reflexivity..|].
  exists ds. split; [exact Hfile|]. rewrite Hlength. vm_compute. reflexivity.
Defined.

(** Witness of X11: the recovery on [guard.xml], whose instruction
    declares type object. *)
Lemma X11_declared_type_witness :
  parse_file "/project/objects/guard.xml"
  = Raise (UnexpectedFileFormat "/project/objects/guard.xml").
Proof.
  apply (X11_declared_type "/project/objects/guard.xml" (4, 13)
           guard_lines (text_of guard_lines) "type" (quoted "object")
           (ElementTree [object_pi] guard_object) object_pi);
    vm_compute; (reflexivity || discriminate).
Defined.

(** Witness of X12: an image with direction 0 whose atlas entry has
    direction 90. *)
Lemma X12_atlas_direction_wins_witness :
  attrib needle_image !! "direction" = Some "0"
  ∧ ∃ image_def,
      image_entry (Some compass_index) objects_dir needle_image
      = Return (90, image_def).
Proof.
  split; [vm_compute; reflexivity|].
  destruct (X12_atlas_direction_wins compass_index objects_dir needle_image
              north_image "north.png" "compass.png" "90" 90)
    as (image_def & Hentry & _); [vm_compute; reflexivity..|].
  exists image_def. exact Hentry.
Defined.

End MoreExamples.

(** ** Image references and animation kinds *)

Section References.
Context `{Platform}.

(** An entry of a mapping built by a storing loop was there before
    or is the entry of an element. *)
Lemma for_each_keyed_lookup {A V K : Type} `{Countable K}
    (entry : A → result (K * V)) (body : gmap K V → A → result (gmap K V))
    (xs : list A) (k : K) (v : V) (m0 m : gmap K V) :
  (∀ m x, body m x = entry x ≫= λ kv, Return (<[kv.1 := kv.2]> m)) →
  for_each body m0 xs = Return m →
  m !! k = Some v →
  m0 !! k = Some v ∨ ∃ x, x ∈ xs ∧ entry x = Return (k, v).
Proof.
  intros body_entry. revert m0.
  induction xs as [|x xs IH]; intros m0 Hrun Hk; simpl in Hrun.
  - inversion Hrun; subst. by left.
  - rewrite body_entry in Hrun. apply bind_Return in Hrun as (m1 & Hx & Hrun).
    apply bind_Return in Hx as ([k' v'] & Hx & Hm1). simpl in Hm1.
    inversion Hm1; subst m1; clear Hm1.
    destruct (IH _ Hrun Hk) as [Hm1|(y & Hy & Hentry)].
    + destruct (decide (k' = k)) as [->|Hne].
      * rewrite lookup_insert_eq in Hm1. injection Hm1 as ->.
        right. exists x. split; [left|done].
      * rewrite lookup_insert_ne in Hm1 by done. by left.
    + right. exists y. split; [by right|done].
Qed.

Lemma image_entry_Return_inv (atlas_def : option atlas_def) (root_path : string)
    (image : element) (n : Z) (image_def : gmap string string) :
  image_entry atlas_def root_path image = Return (n, image_def) →
  parse_image atlas_def root_path image = Return image_def.
Proof.
  unfold image_entry. intros Hentry.
  apply bind_Return in Hentry as (def & Hdef & Hentry).
  apply bind_Return in Hentry as (d & _ & Hentry).
  apply bind_Return in Hentry as (dir & _ & Hentry).
  by inversion Hentry; subst.
Qed.

(** C6: the image references of a static object.  A static object
    whose images are well-formed is parsed, with a ["directions"]
    mapping.  Whenever [parse_object] returns such a mapping, every
    entry of it is the reference of an image child, and every image
    child has a reference, which the mapping holds under the image's
    direction unless a later image has the same direction.  The
    reference of an image whose [source] is a key of the atlas index
    has type "atlas", the attributes of the atlas entry (they win over
    the image's own) and, as [source], the absolute path of the atlas's
    [name]; the reference of an image whose [source] is no key has type
    "image", the image's attributes and the image's own [source] made
    absolute. *)
Theorem C6_atlas_reconciliation (obj : element) (root_path : string)
    (atlas_def : option atlas_def) :
  (Py.int <$> attrib obj !! "static" = Some (Return 1) →
   forallb (wf_image atlas_def) (findall obj "image") = true →
   ∃ d m, parse_object obj root_path atlas_def = Return d
          ∧ directions d = Some m)
  ∧ ∀ d m,
      parse_object obj root_path atlas_def = Return d →
      directions d = Some m →
      (∀ n image_def,
         m !! n = Some image_def →
         ∃ image, image ∈ findall obj "image"
                  ∧ image_entry atlas_def root_path image = Return (n, image_def))
      ∧ (∀ pre image post,
           findall obj "image" = pre ++ image :: post →
           ∃ n image_def source,
             attrib image !! "source" = Some source
             ∧ image_entry atlas_def root_path image = Return (n, image_def)
             ∧ ((∀ later v, later ∈ post →
                   image_entry atlas_def root_path later ≠ Return (n, v)) →
                m !! n = Some image_def)
             ∧ (∀ ad entry,
                  atlas_def = Some ad →
                  images ad !! source = Some entry →
                  ∃ name,
                    attrib (atlas ad) !! "name" = Some name
                    ∧ image_def !! "type" = Some "atlas"
                    ∧ image_def !! "source"
                      = Some (os_path_abspath (os_path_join root_path name))
                    ∧ (∀ k v, k ≠ "type" → k ≠ "source" →
                         attrib entry !! k = Some v → image_def !! k = Some v)
                    ∧ (∀ k, k ≠ "type" → k ≠ "source" →
                         attrib entry !! k = None →
                         image_def !! k = attrib image !! k))
             ∧ (from_option images ∅ atlas_def !! source = None →
                image_def !! "type" = Some "image"
                ∧ image_def !! "source"
                  = Some (os_path_abspath (os_path_join root_path source))
                ∧ (∀ k, k ≠ "type" → k ≠ "source" →
                     image_def !! k = attrib image !! k))).
Proof.
  split.
  { intros Hstatic Hwf.
    destruct (wf_object_parse obj root_path atlas_def) as (d & Hd & _).
    { unfold wf_object. by rewrite Hstatic. }
    rewrite parse_object_static in Hd by done.
    apply bind_Return in Hd as (dirs & Hdirs & Hd). inversion Hd; subst d.
    exists (ObjDef (attrib obj) None (Some dirs)), dirs.
    rewrite parse_object_static by done. by rewrite Hdirs. }
  intros d m Hd Hm.
  pose proof (parse_object_directions _ _ _ _ _ Hd Hm) as Hloop. split.
  - intros n image_def Hn.
    destruct (for_each_keyed_lookup _ _ _ n image_def _ _
                (images_body_entry atlas_def root_path) Hloop Hn)
      as [Hempty|?]; [by rewrite lookup_empty in Hempty|done].
  - intros pre image post Himages.
    destruct (for_each_keyed_entries _ _ (images_body_entry atlas_def root_path)
                _ _ _ Hloop image) as [[n image_def] Hentry].
    { rewrite Himages. apply elem_of_app. right. left. }
    pose proof (image_entry_Return_inv _ _ _ _ _ Hentry) as Hdef.
    destruct (attrib image !! "source") as [source|] eqn:Hsource;
      [|by rewrite parse_image_no_source in Hdef].
    exists n, image_def, source. split; [done|]. split; [done|].
    split; [|split].
    + intros Hpost.
      exact (for_each_last_wins _ _ (images_body_entry atlas_def root_path)
               _ _ _ _ _ _ _ _ Hloop Himages Hentry Hpost).
    + intros ad entry -> Hindexed.
      destruct (attrib (atlas ad) !! "name") as [name|] eqn:Hname;
        [|by rewrite (parse_image_no_name _ _ _ entry source) in Hdef].
      rewrite (parse_image_atlas _ _ _ entry source name) in Hdef by done.
      injection Hdef as <-. exists name. split; [done|].
      split; [by rewrite !lookup_insert_ne, lookup_insert_eq by done|].
      split; [by rewrite lookup_insert_eq|]. split.
      * intros k v Htype Hsrc Hk.
        rewrite !lookup_insert_ne by done. by apply lookup_union_Some_l.
      * intros k Htype Hsrc Hk.
        rewrite !lookup_insert_ne by done. by apply lookup_union_r.
    + intros Hnone.
      rewrite (parse_image_standalone _ _ _ source) in Hdef by done.
      injection Hdef as <-.
      split; [by rewrite lookup_insert_ne, lookup_insert_eq by done|].
      split; [by rewrite lookup_insert_eq|].
      intros k Htype Hsrc. by rewrite !lookup_insert_ne by done.
Qed.

(** C7: the kind of the animations of an action.  A well-formed,
    hence non-empty, list of animation elements is parsed, and the
    kind of the result is "single" when the first element has an
    [atlas] attribute and "multi" when it has none.  Whenever
    [parse_animations] returns on a non-empty list, the kind is
    "single" exactly when the first element has an [atlas] attribute
    and "multi" exactly when it has none; the elements after the first
    have no say in it: with any other tail the kind is the same, and
    after an atlas animation the tail is not even read. *)
Theorem C7_kind_from_first_animation (first : element) (rest : list element)
    (root_path : string) :
  (wf_animations (first :: rest) root_path = true →
   ∃ d, parse_animations (first :: rest) root_path = Return d
        ∧ ani_type d
          = if Py.contains (attrib first) "atlas" then "single" else "multi")
  ∧ ∀ d,
      parse_animations (first :: rest) root_path = Return d →
      (ani_type d = "single" ↔ is_Some (attrib first !! "atlas"))
      ∧ (ani_type d = "multi" ↔ attrib first !! "atlas" = None)
      ∧ (∀ rest' d',
           parse_animations (first :: rest') root_path = Return d' →
           ani_type d' = ani_type d)
      ∧ (is_Some (attrib first !! "atlas") →
         ∀ rest', parse_animations (first :: rest') root_path = Return d).
Proof.
  split.
  { intros [d Hd]%wf_animations_parse. exists d. split; [done|].
    by apply (parse_animations_kind _ rest root_path). }
  intros d Hd. pose proof (parse_animations_kind _ _ _ _ Hd) as Hkind.
  repeat split.
  - intros Hs. apply contains_true.
    destruct (Py.contains _ _); [done|congruence].
  - intros Ha. by rewrite (proj2 (contains_true _ _) Ha) in Hkind.
  - intros Hm. apply contains_false.
    destruct (Py.contains _ _); [congruence|done].
  - intros Ha. by rewrite (proj2 (contains_false _ _) Ha) in Hkind.
  - intros rest' d' Hd'.
    rewrite Hkind. apply (parse_animations_kind _ _ _ _ Hd').
  - intros Ha rest'.
    rewrite parse_animations_single in Hd |- * by done. done.
Qed.

End References.

(** ** Image references and animation kinds on the fixtures *)

Module ReferenceExamples.
Import Fixtures.
#[local] Existing Instance world.

(** Counterexample to C1 as stated: [portal.xml] parses as one XML
    document and its root is an [object] element, but [static] is 2
    and [parse_file] raises instead of returning one definition. *)
Lemma C1_unknown_kind_in_one_document :
  @etree_parse portal_world "/project/objects/portal.xml"
  = Return (ElementTree [] portal_object)
  ∧ tag portal_object = "object"
  ∧ attrib portal_object !! "id" = Some "portal"
  ∧ @parse_file portal_world "/project/objects/portal.xml"
    = Raise (UnsupportedObjectKind "image").
Proof. repeat split; vm_compute; reflexivity. Qed.

(** Witness of C6: the oak of [trees.xml], whose image the atlas
    knows. *)
Lemma C6_atlas_reconciliation_witness :
  ∃ d m image_def,
    parse_object oak_object objects_dir (Some trees_index) = Return d
    ∧ directions d = Some m
    ∧ m !! 0 = Some image_def
    ∧ image_def !! "type" = Some "atlas"
    ∧ image_def !! "source" = Some "/project/objects/trees.png".
Proof.
  destruct (C6_atlas_reconciliation oak_object objects_dir (Some trees_index))
    as [Hparsed Hreferences].
  destruct Hparsed as (d & m & Hd & Hm); [vm_compute; reflexivity..|].
  destruct (Hreferences d m Hd Hm) as [_ Himages].
  destruct (Himages [] oak_picture [])
    as (n & image_def & source & Hsource & Hentry & Hlast & Hindexed & _);
    [vm_compute; reflexivity|].
  vm_compute in Hsource. injection Hsource as <-.
  assert (n = 0) as ->.
  { vm_compute in Hentry. by injection Hentry as <- _. }
  destruct (Hindexed trees_index oak_image)
    as (name & Hname & Htype & Hpath & _);
    [reflexivity | vm_compute; reflexivity |].
  vm_compute in Hname. injection Hname as <-.
  exists d, m, image_def. split; [done|]. split; [done|].
  split; [|split; [done|]].
  - apply Hlast. intros later v Hlater. by apply elem_of_nil in Hlater.
  - rewrite Hpath. vm_compute. reflexivity.
Defined.

(** Witness of C7: a list that starts with an atlas animation and a
    list of two frame animations. *)
Lemma C7_kind_from_first_animation_witness :
  (∃ d, parse_animations [spin_animation; run_old] objects_dir = Return d
        ∧ ani_type d = "single")
  ∧ (∃ d, parse_animations [run_old; run_new] objects_dir = Return d
          ∧ ani_type d = "multi").
Proof.
  split.
  - destruct (C7_kind_from_first_animation spin_animation [run_old] objects_dir)
      as [Hparsed _].
    destruct Hparsed as (d & Hd & Hkind); [vm_compute; reflexivity|].
    exists d. split; [done|]. rewrite Hkind. vm_compute. reflexivity.
  - destruct (C7_kind_from_first_animation run_old [run_new] objects_dir)
      as [Hparsed _].
    destruct Hparsed as (d & Hd & Hkind); [vm_compute; reflexivity|].
    exists d. split; [done|]. rewrite Hkind. vm_compute. reflexivity.
Defined.

(** Counterexample to C8 as stated: [short_animation] is inline and
    its [id], [girl:run], has two segments; what [parse_animation]
    raises is of class [IndexError], Python's own, not of a class
    named MalformedDefinition. *)
Lemma C8_index_error_raised :
  attrib short_animation !! "source" = None
  ∧ attrib short_animation !! "id" = Some "girl:run"
  ∧ Py.split ":" "girl:run" = ["girl"; "run"]
  ∧ ∃ e, parse_animation 0 short_animation objects_dir = Raise e
         ∧ class_name e = "IndexError"
         ∧ class_name e ≠ "MalformedDefinition".
Proof.
  split; [vm_compute; reflexivity|]. split; [vm_compute; reflexivity|].
  split; [vm_compute; reflexivity|].
  exists IndexError. split; [vm_compute; reflexivity|]. split; [done|discriminate].
Qed.

(** Counterexample to C10 as stated: both images of [dial_object]
    declare direction 0, and the atlas entry of the second has
    direction 90.  The mapping has two entries, and under 0 it holds
    the reference of the first image, not of the last one. *)
Lemma C10_declared_direction_overridden :
  findall dial_object "image" = [south_image; needle_image]
  ∧ attrib south_image !! "direction" = Some "0"
  ∧ attrib needle_image !! "direction" = Some "0"
  ∧ ∃ d m first_def last_def,
      parse_object dial_object objects_dir (Some compass_index) = Return d
      ∧ directions d = Some m
      ∧ parse_image (Some compass_index) objects_dir south_image = Return first_def
      ∧ parse_image (Some compass_index) objects_dir needle_image = Return last_def
      ∧ m !! 0 = Some first_def
      ∧ m !! 90 = Some last_def
      ∧ first_def ≠ last_def
      ∧ size m = 2%nat.
Proof.
  split; [vm_compute; reflexivity|]. split; [vm_compute; reflexivity|].
  split; [vm_compute; reflexivity|].
  eexists _, _, _, _. split; [vm_compute; reflexivity|].
  split; [reflexivity|]. split; [vm_compute; reflexivity|].
  split; [vm_compute; reflexivity|]. split; [vm_compute; reflexivity|].
  split; [vm_compute; reflexivity|]. split; [|vm_compute; reflexivity].
  intros Heq. apply (f_equal (λ def : gmap string string, def !! "type")) in Heq.
  vm_compute in Heq. discriminate.
Qed.

(** The digits of other scripts count for [int] as they do in Python:
    a [static] attribute written with the Arabic-Indic digit one reads
    as 1. *)
Example int_reads_arabic_indic_digit : Py.int "١" = Return 1.
Proof. vm_compute. reflexivity. Qed.

End ReferenceExamples.
